(** * GPyTorch example notebooks: orchestration of an external framework

    The repository consists of three Jupyter notebooks.  Their code cells are
    straight-line Python (two [for] loops, a few [if]s and [with] blocks) whose
    every step is a call into an external library (torch, gpytorch,
    matplotlib, IPython) or into the Python runtime.

    The embedding follows that shape:
    - [Py]: Python values, external calls, and notebook code as a monad of
      calls ([py]); [run] executes a program against a handler that stands for
      everything outside the notebook and records the trace of calls;
    - [SaveLoad], [SpectralMixture], [CIQ]: the three notebooks, cell by cell;
    - [Torch]: a handler for the parameter-dictionary part of the framework
      (module trees, [state_dict], [torch.save], [torch.load],
      [load_state_dict]) on which the save/load notebook runs;
    - the properties. *)

From Stdlib Require Import ZArith Lia Ascii.
From stdpp Require Import base strings list gmap pretty.

#[local] Set Warnings "-register-all".


(** ** Python values and notebook programs *)

Module Py.

(** Numbers as the notebooks write and display them: a decimal [m * 10^e]
    (a Python or tensor float), infinity, or an integer. *)
Inductive scalar :=
| F (m e : Z)
| FInf
| Int (z : Z).

(** A tensor: its shape and its entries in row-major order. *)
Record tensor := Tensor { shape : list nat; data : list scalar }.

(** A Python exception: class name and message. *)
Record exn := Exn { exn_class : string; exn_msg : string }.

Inductive val :=
| VNone
| VBool (b : bool)
| VNum (x : scalar)
| VStr (s : string)
| VName (qualname : string)            (* a named object of a library, e.g. a class *)
| VObj (h : nat)                       (* an object owned by the framework *)
| VTensor (t : tensor)
| VDict (d : list (string * tensor))   (* an OrderedDict of tensors *)
| VSize (l : list nat)                 (* torch.Size *)
| VKeys (missing unexpected : list string)  (* result of load_state_dict *)
| VKw (name : string) (v : val)        (* keyword argument name=v *)
| VTuple (l : list val)
| VList (l : list val)
| VExc (e : exn).

(** Python truth value, as [if] and the result of [__exit__] are tested. *)
Definition truthy (v : val) : bool :=
  match v with
  | VNone => false
  | VBool b => b
  | VNum (Int z) => negb (z =? 0)%Z
  | VNum (F m _) => negb (m =? 0)%Z
  | VStr s => negb (String.eqb s "")
  | VDict d => negb (Nat.eqb (length d) 0)
  | VSize l | VTuple l | VList l => negb (Nat.eqb (length l) 0)
  | _ => true
  end.

(** What a notebook can ask of the world outside its own control flow. *)
Inductive fn :=
| Import                 (* import statement; argument: the module *)
| Magic                  (* an IPython magic line *)
| ClassDef               (* class statement; arguments: name and base *)
| New                    (* allocation of an instance of a notebook class *)
| Func (name : string)   (* call of a library function or class *)
| Method (name : string) (* obj.name(args...); the receiver is the first argument *)
| GetAttr                (* obj.name *)
| SetAttr.               (* obj.name = v *)

#[global] Instance fn_eq_dec : EqDecision fn.
Proof. solve_decision. Defined.

(** Notebook code: a tree of external calls.  [With mgr body k] is the
    statement [with mgr: body] followed by [k]. *)
Inductive py (R : Type) : Type :=
| Ret (r : R)
| Call (f : fn) (args : list val) (k : val -> py R)
| With (mgr : val) (body : py unit) (k : py R).
Arguments Ret {R} r.
Arguments Call {R} f args k.
Arguments With {R} mgr body k.

Fixpoint bind {A B : Type} (p : py A) (g : A -> py B) : py B :=
  match p with
  | Ret a => g a
  | Call f args k => Call f args (fun v => bind (k v) g)
  | With m b k => With m b (bind k g)
  end.

Definition call (f : fn) (args : list val) : py val := Call f args Ret.

(** [for i in range(n): body i] *)
Fixpoint for_range_from (start n : nat) (body : nat -> py unit) : py unit :=
  match n with
  | O => Ret tt
  | S n' => bind (body start) (fun _ => for_range_from (S start) n' body)
  end.
Definition for_range := for_range_from 0.

(** One recorded call: what was called, with what, and what came back. *)
Record event := Ev { ev_fn : fn; ev_args : list val; ev_res : exn + val }.

(** The world outside the notebook: given a call and its hidden state, a new
    state and either an exception or a value. *)
Definition handler (S : Type) := fn -> list val -> S -> S * (exn + val).

Definition outcome (R : Type) : Type := exn + R.

(** Execution.  A call that raises ends the program with that exception.
    [with] follows Python: [__enter__], the body, then [__exit__] whether or
    not the body raised; an exception of the body goes on unless [__exit__]
    returns a true value. *)
Fixpoint run {S R : Type} (h : handler S) (p : py R) (s : S)
  : list event * S * outcome R :=
  match p with
  | Ret r => ([], s, inr r)
  | Call f args k =>
      let '(s1, r) := h f args s in
      match r with
      | inl e => ([Ev f args r], s1, inl e)
      | inr v =>
          let '(tr, s2, o) := run h (k v) s1 in
          (Ev f args r :: tr, s2, o)
      end
  | With m body k =>
      let '(s1, r1) := h (Method "__enter__") [m] s in
      let ev1 := Ev (Method "__enter__") [m] r1 in
      match r1 with
      | inl e => ([ev1], s1, inl e)
      | inr _ =>
          let '(trb, s2, ob) := run h body s1 in
          let exc := match ob with inl e => VExc e | inr _ => VNone end in
          let '(s3, r3) := h (Method "__exit__") [m; exc] s2 in
          let ev3 := Ev (Method "__exit__") [m; exc] r3 in
          match r3, ob with
          | inl e', _ => (ev1 :: trb ++ [ev3], s3, inl e')
          | inr v, inl e =>
              if truthy v then
                let '(tr, s4, o) := run h k s3 in
                (ev1 :: trb ++ ev3 :: tr, s4, o)
              else (ev1 :: trb ++ [ev3], s3, inl e)
          | inr _, inr _ =>
              let '(tr, s4, o) := run h k s3 in
              (ev1 :: trb ++ ev3 :: tr, s4, o)
          end
      end
  end.

Definition trace_of {S R : Type} (h : handler S) (p : py R) (s : S) : list event :=
  (run h p s).1.1.
Definition result_of {S R : Type} (h : handler S) (p : py R) (s : S) : outcome R :=
  (run h p s).2.

Definition succeeded (ev : event) : bool :=
  match ev_res ev with inr _ => true | inl _ => false end.
Definition raised (ev : event) (e : exn) : Prop := ev_res ev = inl e.
Definition is_fn (f : fn) (ev : event) : bool := bool_decide (ev_fn ev = f).
Definition count_fn (f : fn) (tr : list event) : nat :=
  length (filter (fun ev => ev_fn ev = f) tr).

End Py.
Export Py.

Notation "x <- c ;; k" := (bind c (fun x => k))
  (at level 100, c at next level, right associativity).
Notation "c ;; k" := (bind c (fun _ => k))
  (at level 100, right associativity).

(** ** Shorthands for the Python that the cells use *)

Module Syntax.

Definition import_ (module : string) : py val := call Import [VStr module].
Definition magic (line : string) : py val := call Magic [VStr line].
Definition func (name : string) (args : list val) : py val := call (Func name) args.
Definition meth (recv : val) (name : string) (args : list val) : py val :=
  call (Method name) (recv :: args).
Definition getattr (o : val) (name : string) : py val := call GetAttr [o; VStr name].
Definition setattr (o : val) (name : string) (v : val) : py val :=
  call SetAttr [o; VStr name; v].

(** [a, b = v] *)
Definition unpack2 (v : val) : py (val * val) :=
  a <- meth v "__getitem__" [VNum (Int 0)];;
  b <- meth v "__getitem__" [VNum (Int 1)];;
  Ret (a, b).

(** [%time stmt]: the statement runs, then IPython reports the times. *)
Definition pct_time (stmt : py val) : py val :=
  r <- stmt;; magic "time";; Ret r.

(** A class written in a notebook, always a subclass of a framework model
    with the constructor signature [(self, train_x, train_y, likelihood)]. *)
Record pyclass := PyClass {
  cls_name : string;
  cls_base : string;
  cls_init : val -> val -> val -> val -> py unit;
  cls_forward : val -> val -> py val
}.

Definition class_stmt (c : pyclass) : py val :=
  call ClassDef [VStr (cls_name c); VName (cls_base c)].

(** [C(train_x, train_y, likelihood)] for a notebook class [C]. *)
Definition instantiate (c : pyclass) (train_x train_y likelihood : val) : py val :=
  self <- call New [VStr (cls_name c)];;
  cls_init c self train_x train_y likelihood;;
  Ret self.

(** [2 * math.pi] and the other float literals of the notebooks. *)
Definition math_pi : scalar := F 3141592653589793 (-15).
Definition two_pi : scalar := F (2 * 3141592653589793) (-15).

(** [os.environ]: the process environment, an input of a run. *)
Definition environ_t : Type := gmap string string.
Definition in_environ (name : string) (environ : environ_t) : bool :=
  bool_decide (is_Some (environ !! name)).

End Syntax.
Export Syntax.

(** ** The save/load notebook (src/unnamed/part_000) *)

Module SaveLoad.

Definition cell_1 : py unit :=
  import_ "math";;
  import_ "torch";;
  import_ "gpytorch";;
  import_ "matplotlib.pyplot";;
  Ret tt.

(** train_x = torch.linspace(0, 1, 100)
    train_y = torch.sin(train_x * (2 * math.pi)) + torch.randn(train_x.size()) * 0.2 *)
Definition cell_2 : py (val * val) :=
  train_x <- func "torch.linspace" [VNum (Int 0); VNum (Int 1); VNum (Int 100)];;
  a <- meth train_x "__mul__" [VNum two_pi];;
  b <- func "torch.sin" [a];;
  sz <- meth train_x "size" [];;
  c <- func "torch.randn" [sz];;
  d <- meth c "__mul__" [VNum (F 2 (-1))];;
  train_y <- meth b "__add__" [d];;
  Ret (train_x, train_y).

Definition ExactGPModel : pyclass := {|
  cls_name := "ExactGPModel";
  cls_base := "gpytorch.models.ExactGP";
  cls_init := fun self train_x train_y likelihood =>
    func "gpytorch.models.ExactGP.__init__" [self; train_x; train_y; likelihood];;
    m <- func "gpytorch.means.ConstantMean" [];;
    setattr self "mean_module" m;;
    rbf <- func "gpytorch.kernels.RBFKernel" [];;
    sk <- func "gpytorch.kernels.ScaleKernel" [rbf];;
    setattr self "covar_module" sk;;
    Ret tt;
  cls_forward := fun self x =>
    mm <- getattr self "mean_module";;
    mean_x <- meth mm "__call__" [x];;
    cm <- getattr self "covar_module";;
    covar_x <- meth cm "__call__" [x];;
    func "gpytorch.distributions.MultivariateNormal" [mean_x; covar_x]
|}.

(** Returns the bindings [likelihood], [model]. *)
Definition cell_3 (train_x train_y : val) : py (val * val) :=
  class_stmt ExactGPModel;;
  likelihood <- func "gpytorch.likelihoods.GaussianLikelihood" [];;
  model <- instantiate ExactGPModel train_x train_y likelihood;;
  Ret (likelihood, model).

Definition cell_4 (model : val) : py unit :=
  cm <- getattr model "covar_module";;
  setattr cm "outputscale" (VNum (F 12 (-1)));;
  cm' <- getattr model "covar_module";;
  bk <- getattr cm' "base_kernel";;
  setattr bk "lengthscale" (VNum (F 22 (-1)));;
  Ret tt.

(** A cell whose last line is an expression displays its value: the cell
    returns it. *)
Definition cell_5 (model : val) : py val :=
  meth model "state_dict" [].

Definition cell_6 (model : val) : py unit :=
  sd <- meth model "state_dict" [];;
  func "torch.save" [sd; VStr "model_state.pth"];;
  Ret tt.

(** Returns the new binding of [model] and the displayed value. *)
Definition cell_7 (train_x train_y likelihood : val) : py (val * val) :=
  state_dict <- func "torch.load" [VStr "model_state.pth"];;
  model <- instantiate ExactGPModel train_x train_y likelihood;;
  out <- meth model "load_state_dict" [state_dict];;
  Ret (model, out).

Definition cell_8 (model : val) : py val :=
  meth model "state_dict" [].

Definition GPWithNNFeatureExtractor : pyclass := {|
  cls_name := "GPWithNNFeatureExtractor";
  cls_base := "gpytorch.models.ExactGP";
  cls_init := fun self train_x train_y likelihood =>
    func "gpytorch.models.ExactGP.__init__" [self; train_x; train_y; likelihood];;
    m <- func "gpytorch.means.ConstantMean" [];;
    setattr self "mean_module" m;;
    rbf <- func "gpytorch.kernels.RBFKernel" [];;
    sk <- func "gpytorch.kernels.ScaleKernel" [rbf];;
    setattr self "covar_module" sk;;
    l0 <- func "torch.nn.Linear" [VNum (Int 1); VNum (Int 2)];;
    l1 <- func "torch.nn.BatchNorm1d" [VNum (Int 2)];;
    l2 <- func "torch.nn.ReLU" [];;
    l3 <- func "torch.nn.Linear" [VNum (Int 2); VNum (Int 2)];;
    l4 <- func "torch.nn.BatchNorm1d" [VNum (Int 2)];;
    l5 <- func "torch.nn.ReLU" [];;
    fe <- func "torch.nn.Sequential" [l0; l1; l2; l3; l4; l5];;
    setattr self "feature_extractor" fe;;
    Ret tt;
  cls_forward := fun self x =>
    fe <- getattr self "feature_extractor";;
    x' <- meth fe "__call__" [x];;
    mm <- getattr self "mean_module";;
    mean_x <- meth mm "__call__" [x'];;
    cm <- getattr self "covar_module";;
    covar_x <- meth cm "__call__" [x'];;
    func "gpytorch.distributions.MultivariateNormal" [mean_x; covar_x]
|}.

Definition cell_10 (train_x train_y : val) : py (val * val) :=
  class_stmt GPWithNNFeatureExtractor;;
  likelihood <- func "gpytorch.likelihoods.GaussianLikelihood" [];;
  model <- instantiate GPWithNNFeatureExtractor train_x train_y likelihood;;
  Ret (likelihood, model).

Definition cell_11 (model : val) : py val :=
  meth model "state_dict" [].

Definition cell_12 (train_x train_y likelihood model : val) : py (val * val) :=
  sd <- meth model "state_dict" [];;
  func "torch.save" [sd; VStr "my_gp_with_nn_model.pth"];;
  state_dict <- func "torch.load" [VStr "my_gp_with_nn_model.pth"];;
  model' <- instantiate GPWithNNFeatureExtractor train_x train_y likelihood;;
  out <- meth model' "load_state_dict" [state_dict];;
  Ret (model', out).

Definition cell_13 (model : val) : py val :=
  meth model "state_dict" [].

(** What the notebook displays under cells 5, 7, 8, 11, 12 and 13. *)
Record displayed := Displayed {
  out_5 : val; out_7 : val; out_8 : val;
  out_11 : val; out_12 : val; out_13 : val
}.

(** The notebook run top to bottom.  It reads neither the environment nor
    any flag. *)
Definition notebook : py displayed :=
  cell_1;;
  xy <- cell_2;;
  let '(train_x, train_y) := xy in
  lm <- cell_3 train_x train_y;;
  let '(likelihood, model) := lm in
  cell_4 model;;
  o5 <- cell_5 model;;
  cell_6 model;;
  mo <- cell_7 train_x train_y likelihood;;
  let '(model, o7) := mo in
  o8 <- cell_8 model;;
  lm <- cell_10 train_x train_y;;
  let '(likelihood, model) := lm in
  o11 <- cell_11 model;;
  mo <- cell_12 train_x train_y likelihood model;;
  let '(model, o12) := mo in
  o13 <- cell_13 model;;
  Ret (Displayed o5 o7 o8 o11 o12 o13).

End SaveLoad.

(** ** Code shared in form by the two training notebooks *)

Module Training.

(** [with mgr_expr: body], the manager being built just before it is
    entered; [with a, b: body] is [with_ a (with_ b body)]. *)
Definition with_ (mgr_expr : py val) (body : py unit) : py unit :=
  m <- mgr_expr;; With m body (Ret tt).

(** training_iter = 2 if smoke_test else <full>, with
    smoke_test = ('CI' in os.environ) *)
Definition training_iter (full : nat) (environ : environ_t) : nat :=
  let smoke_test := in_environ "CI" environ in
  if smoke_test then 2 else full.

(** The four statements every iteration starts with; returns [loss]. *)
Definition forward_backward (optimizer model mll train_x train_y : val) : py val :=
  meth optimizer "zero_grad" [];;
  output <- meth model "__call__" [train_x];;
  l <- meth mll "__call__" [output; train_y];;
  loss <- meth l "__neg__" [];;
  meth loss "backward" [];;
  Ret loss.

(** Everything before the loop in a training cell; returns [optimizer], [mll]. *)
Definition training_setup (model likelihood : val) : py (val * val) :=
  import_ "os";;
  meth model "train" [];;
  meth likelihood "train" [];;
  params <- meth model "parameters" [];;
  optimizer <- func "torch.optim.Adam" [params; VKw "lr" (VNum (F 1 (-1)))];;
  mll <- func "gpytorch.mlls.ExactMarginalLogLikelihood" [likelihood; model];;
  Ret (optimizer, mll).

End Training.
Export Training.

(** ** The spectral-mixture notebook
    (src/examples/01_Exact_GPs/Spectral_Mixture_GP_Regression.ipynb) *)

Module SpectralMixture.

Definition cell_1 : py unit :=
  import_ "math";;
  import_ "torch";;
  import_ "gpytorch";;
  import_ "matplotlib.pyplot";;
  magic "matplotlib inline";;
  magic "load_ext autoreload";;
  magic "autoreload 2";;
  Ret tt.

Definition cell_3 : py (val * val) :=
  train_x <- func "torch.linspace" [VNum (Int 0); VNum (Int 1); VNum (Int 15)];;
  a <- meth train_x "__mul__" [VNum two_pi];;
  train_y <- func "torch.sin" [a];;
  Ret (train_x, train_y).

Definition SpectralMixtureGPModel : pyclass := {|
  cls_name := "SpectralMixtureGPModel";
  cls_base := "gpytorch.models.ExactGP";
  cls_init := fun self train_x train_y likelihood =>
    func "gpytorch.models.ExactGP.__init__" [self; train_x; train_y; likelihood];;
    m <- func "gpytorch.means.ConstantMean" [];;
    setattr self "mean_module" m;;
    k <- func "gpytorch.kernels.SpectralMixtureKernel" [VKw "num_mixtures" (VNum (Int 4))];;
    setattr self "covar_module" k;;
    cm <- getattr self "covar_module";;
    meth cm "initialize_from_data" [train_x; train_y];;
    Ret tt;
  cls_forward := fun self x =>
    mm <- getattr self "mean_module";;
    mean_x <- meth mm "__call__" [x];;
    cm <- getattr self "covar_module";;
    covar_x <- meth cm "__call__" [x];;
    func "gpytorch.distributions.MultivariateNormal" [mean_x; covar_x]
|}.

Definition cell_5 (train_x train_y : val) : py (val * val) :=
  class_stmt SpectralMixtureGPModel;;
  likelihood <- func "gpytorch.likelihoods.GaussianLikelihood" [];;
  model <- instantiate SpectralMixtureGPModel train_x train_y likelihood;;
  Ret (likelihood, model).

(** One pass of the [for] body. *)
Definition training_step (training_iter : nat)
    (optimizer model mll train_x train_y : val) (i : nat) : py unit :=
  loss <- forward_backward optimizer model mll train_x train_y;;
  x <- meth loss "item" [];;
  line <- meth (VStr "Iter %d/%d - Loss: %.3f") "__mod__"
            [VTuple [VNum (Int (Z.of_nat i + 1)); VNum (Int (Z.of_nat training_iter)); x]];;
  func "print" [line];;
  meth optimizer "step" [];;
  Ret tt.

Definition training_loop (training_iter : nat)
    (optimizer model mll train_x train_y : val) : py unit :=
  for_range training_iter
    (training_step training_iter optimizer model mll train_x train_y).

Definition cell_7 (environ : environ_t) (train_x train_y likelihood model : val)
  : py unit :=
  om <- training_setup model likelihood;;
  let '(optimizer, mll) := om in
  training_loop (training_iter 100 environ) optimizer model mll train_x train_y.

Definition cell_9 (train_x train_y likelihood model : val) : py unit :=
  test_x <- func "torch.linspace" [VNum (Int 0); VNum (Int 5); VNum (Int 51)];;
  meth model "eval" [];;
  meth likelihood "eval" [];;
  with_ (func "torch.no_grad" [])
    (with_ (func "gpytorch.settings.fast_pred_var" [])
      (p <- meth model "__call__" [test_x];;
       observed_pred <- meth likelihood "__call__" [p];;
       sp <- func "matplotlib.pyplot.subplots"
               [VNum (Int 1); VNum (Int 1); VKw "figsize" (VTuple [VNum (Int 4); VNum (Int 3)])];;
       fa <- unpack2 sp;;
       let '(f, ax) := fa in
       cr <- meth observed_pred "confidence_region" [];;
       lu <- unpack2 cr;;
       let '(lower, upper) := lu in
       nx <- meth train_x "numpy" [];;
       ny <- meth train_y "numpy" [];;
       meth ax "plot" [nx; ny; VStr "k*"];;
       tx <- meth test_x "numpy" [];;
       mean <- getattr observed_pred "mean";;
       nm <- meth mean "numpy" [];;
       meth ax "plot" [tx; nm; VStr "b"];;
       tx' <- meth test_x "numpy" [];;
       nl <- meth lower "numpy" [];;
       nu <- meth upper "numpy" [];;
       meth ax "fill_between" [tx'; nl; nu; VKw "alpha" (VNum (F 5 (-1)))];;
       meth ax "set_ylim" [VList [VNum (Int (-3)); VNum (Int 3)]];;
       meth ax "legend" [VList [VStr "Observed Data"; VStr "Mean"; VStr "Confidence"]];;
       Ret tt)).

Definition notebook (environ : environ_t) : py unit :=
  cell_1;;
  xy <- cell_3;;
  let '(train_x, train_y) := xy in
  lm <- cell_5 train_x train_y;;
  let '(likelihood, model) := lm in
  cell_7 environ train_x train_y likelihood model;;
  cell_9 train_x train_y likelihood model.

End SpectralMixture.

(** ** The CIQ notebook
    (src/examples/02_Scalable_Exact_GPs/Exact_GP_Posterior_Sampling_with_CIQ.ipynb) *)

Module CIQ.

Definition cell_1 : py unit :=
  import_ "math";;
  import_ "torch";;
  import_ "gpytorch";;
  import_ "matplotlib.pyplot";;
  import_ "warnings";;
  func "warnings.simplefilter"
    [VStr "ignore"; VName "gpytorch.utils.warnings.NumericalWarning"];;
  magic "matplotlib inline";;
  magic "load_ext autoreload";;
  magic "autoreload 2";;
  Ret tt.

Definition cell_2 : py (val * val) :=
  train_x <- func "torch.linspace" [VNum (Int 0); VNum (Int 1); VNum (Int 1000)];;
  a <- meth train_x "__mul__" [VNum two_pi];;
  b <- func "torch.sin" [a];;
  sz <- meth train_x "size" [];;
  c <- func "torch.randn" [sz];;
  d <- meth c "__mul__" [VNum (F 2 (-1))];;
  train_y <- meth b "__add__" [d];;
  Ret (train_x, train_y).

(** Cell 3 is the single assignment [HAVE_KEOPS = False]; the text above it
    invites the reader to change it, so the flag is a parameter of the code
    below and [cell_3] is the value the notebook ships. *)
Definition cell_3 : bool := false.

Definition ExactGPModel (HAVE_KEOPS : bool) : pyclass := {|
  cls_name := "ExactGPModel";
  cls_base := "gpytorch.models.ExactGP";
  cls_init := fun self train_x train_y likelihood =>
    func "gpytorch.models.ExactGP.__init__" [self; train_x; train_y; likelihood];;
    m <- func "gpytorch.means.ConstantMean" [];;
    setattr self "mean_module" m;;
    (if HAVE_KEOPS then
       rbf <- func "gpytorch.kernels.keops.RBFKernel" [];;
       sk <- func "gpytorch.kernels.ScaleKernel" [rbf];;
       setattr self "covar_module" sk
     else
       rbf <- func "gpytorch.kernels.RBFKernel" [];;
       sk <- func "gpytorch.kernels.ScaleKernel" [rbf];;
       setattr self "covar_module" sk);;
    Ret tt;
  cls_forward := fun self x =>
    mm <- getattr self "mean_module";;
    mean_x <- meth mm "__call__" [x];;
    cm <- getattr self "covar_module";;
    covar_x <- meth cm "__call__" [x];;
    func "gpytorch.distributions.MultivariateNormal" [mean_x; covar_x]
|}.

Definition cell_4 (HAVE_KEOPS : bool) (train_x train_y : val) : py (val * val) :=
  class_stmt (ExactGPModel HAVE_KEOPS);;
  likelihood <- func "gpytorch.likelihoods.GaussianLikelihood" [];;
  model <- instantiate (ExactGPModel HAVE_KEOPS) train_x train_y likelihood;;
  Ret (likelihood, model).

(** The names a cell may rebind. *)
Record names := Names { train_x : val; train_y : val; model : val; likelihood : val }.

Definition cell_5 (n : names) : py names :=
  avail <- func "torch.cuda.is_available" [];;
  if truthy avail then
    tx <- meth (train_x n) "cuda" [];;
    ty <- meth (train_y n) "cuda" [];;
    m <- meth (model n) "cuda" [];;
    l <- meth (likelihood n) "cuda" [];;
    Ret (Names tx ty m l)
  else Ret n.

Definition training_step (training_iter : nat)
    (optimizer model mll train_x train_y : val) (i : nat) : py unit :=
  loss <- forward_backward optimizer model mll train_x train_y;;
  x <- meth loss "item" [];;
  cm <- getattr model "covar_module";;
  bk <- getattr cm "base_kernel";;
  ls <- getattr bk "lengthscale";;
  lsx <- meth ls "item" [];;
  lk <- getattr model "likelihood";;
  noise <- getattr lk "noise";;
  nx <- meth noise "item" [];;
  line <- meth (VStr "Iter %d/%d - Loss: %.3f   lengthscale: %.3f   noise: %.3f")
            "__mod__"
            [VTuple [VNum (Int (Z.of_nat i + 1)); VNum (Int (Z.of_nat training_iter));
                     x; lsx; nx]];;
  func "print" [line];;
  meth optimizer "step" [];;
  Ret tt.

Definition training_loop (training_iter : nat)
    (optimizer model mll train_x train_y : val) : py unit :=
  for_range training_iter
    (training_step training_iter optimizer model mll train_x train_y).

Definition cell_6 (environ : environ_t) (n : names) : py unit :=
  om <- training_setup (model n) (likelihood n);;
  let '(optimizer, mll) := om in
  training_loop (training_iter 50 environ) optimizer (model n) mll
    (train_x n) (train_y n).

Definition test_n (HAVE_KEOPS : bool) : Z :=
  if HAVE_KEOPS then 50000 else 10000.

(** Returns [test_x]. *)
Definition cell_7 (HAVE_KEOPS : bool) : py val :=
  test_x <- func "torch.linspace" [VNum (Int 0); VNum (Int 1); VNum (Int (test_n HAVE_KEOPS))];;
  avail <- func "torch.cuda.is_available" [];;
  test_x <- (if truthy avail then meth test_x "cuda" [] else Ret test_x);;
  sh <- getattr test_x "shape";;
  func "print" [sh];;
  Ret test_x.

Definition cell_8 (n : names) (test_x : val) : py unit :=
  import_ "time";;
  meth (model n) "train" [];;
  meth (likelihood n) "train" [];;
  meth (model n) "eval" [];;
  meth (likelihood n) "eval" [];;
  meth test_x "requires_grad_" [VBool true];;
  with_ (func "torch.no_grad" [])
    (p <- meth (model n) "__call__" [test_x];;
     observed_pred <- meth (likelihood n) "__call__" [p];;
     func "print" [VStr "Running with CIQ"];;
     with_ (func "gpytorch.settings.ciq_samples" [VBool true])
       (with_ (func "gpytorch.settings.num_contour_quadrature" [VNum (Int 10)])
         (with_ (func "gpytorch.settings.minres_tolerance" [VNum (F 1 (-4))])
           (pct_time (meth observed_pred "rsample" []);; Ret tt)));;
     func "print" [VStr "Running with Cholesky"];;
     with_ (func "gpytorch.settings.fast_computations"
              [VKw "covar_root_decomposition" (VBool false)])
       (pct_time (meth observed_pred "rsample" []);; Ret tt)).

Definition notebook (HAVE_KEOPS : bool) (environ : environ_t) : py unit :=
  cell_1;;
  xy <- cell_2;;
  lm <- cell_4 HAVE_KEOPS xy.1 xy.2;;
  n <- cell_5 (Names xy.1 xy.2 lm.2 lm.1);;
  cell_6 environ n;;
  test_x <- cell_7 HAVE_KEOPS;;
  cell_8 n test_x.

(** The notebook as shipped. *)
Definition shipped (environ : environ_t) : py unit := notebook cell_3 environ.

End CIQ.

(** ** The framework's parameter dictionaries

    Modelled from the spec: the external framework (torch, gpytorch) is not
    part of the repository; the spec describes its save/load-state mechanism
    as "a thin recursive key-value traversal over a parameter tree" and the
    checkpoint as "a saved mapping from parameter names to their learned
    numeric values".  This module is that mechanism as the framework
    documents it: modules own parameters, buffers and named child modules;
    [state_dict] walks the tree, parameters before buffers before children,
    joining names with '.'; strict [load_state_dict] copies every entry into
    the module and raises when a key is missing or unexpected or when a shape
    differs; [torch.save] and [torch.load] store and fetch a value under a
    file name.  Modules are objects in a heap and children are references, so
    a likelihood passed to two models is shared by them, as in Python. *)

Module Torch.

(** The floating-point and random parts of the framework, left open. *)
Record numerics := Numerics {
  linspace : scalar -> scalar -> scalar -> tensor;
  t_sin : tensor -> tensor;
  t_mul : tensor -> scalar -> tensor;
  t_add : tensor -> tensor -> tensor;
  randn : nat -> list nat -> tensor;          (* generator state, size *)
  uniform : nat -> nat -> nat -> list scalar; (* generator state, fan-in, count *)
  inv_softplus : scalar -> scalar
}.

Record node := Node {
  n_class : string;
  n_init : bool;                        (* Module.__init__ has run *)
  n_params : list (string * tensor);    (* trainable *)
  n_buffers : list (string * tensor);   (* persistent, not trainable *)
  n_children : list (string * nat)
}.

Record world := World {
  heap : list node;
  files : gmap string val;
  rng : nat
}.

Definition empty_world : world := World [] ∅ 0.

Definition sdict : Type := list (string * tensor).

Definition keys (d : sdict) : list string := d.*1.

Fixpoint sd_get (key : string) (d : sdict) : option tensor :=
  match d with
  | [] => None
  | (k, t) :: d' => if String.eqb k key then Some t else sd_get key d'
  end.

Definition with_prefix (prefix : string) (entries : sdict) : sdict :=
  map (fun kt => (prefix +:+ kt.1, kt.2)) entries.

(** Module.state_dict(prefix): own parameters, own buffers, then each child
    under [prefix + name + '.'].  The fuel bounds the depth; it runs out only
    on a cyclic module graph, where Python would not return either. *)
Fixpoint state_dict_from (fuel : nat) (hp : list node) (prefix : string) (h : nat)
  : option sdict :=
  match fuel with
  | O => None
  | S fuel' =>
      n ← hp !! h;
      rest ← mapM (fun c => state_dict_from fuel' hp (prefix +:+ c.1 +:+ ".") c.2)
                  (n_children n);
      Some (with_prefix prefix (n_params n ++ n_buffers n) ++ concat rest)
  end.

Definition state_dict (hp : list node) (h : nat) : option sdict :=
  state_dict_from (S (length hp)) hp "" h.

(** Module.named_parameters(): the trainable entries only. *)
Fixpoint named_parameters_from (fuel : nat) (hp : list node) (prefix : string) (h : nat)
  : option sdict :=
  match fuel with
  | O => None
  | S fuel' =>
      n ← hp !! h;
      rest ← mapM (fun c => named_parameters_from fuel' hp (prefix +:+ c.1 +:+ ".") c.2)
                  (n_children n);
      Some (with_prefix prefix (n_params n) ++ concat rest)
  end.

Definition named_parameters (hp : list node) (h : nat) : option sdict :=
  named_parameters_from (S (length hp)) hp "" h.

(** What a strict load collects on its way. *)
Record report := Report {
  missing : list string;
  unexpected : list string;
  mismatched : list string
}.

Definition clean (r : report) : bool :=
  match missing r, unexpected r, mismatched r with
  | [], [], [] => true
  | _, _, _ => false
  end.

(** Copy the entries of [sd] into the local entries [entries] of a module;
    an absent key is missing, a different shape is an error, and in both
    cases the entry keeps its value. *)
Fixpoint load_entries (prefix : string) (sd : sdict) (entries : sdict) (r : report)
  : sdict * report :=
  match entries with
  | [] => ([], r)
  | (name, t) :: rest =>
      let key := prefix +:+ name in
      let '(t', r') :=
        match sd_get key sd with
        | Some input =>
            if bool_decide (shape input = shape t) then (input, r)
            else (t, Report (missing r) (unexpected r) (mismatched r ++ [key]))
        | None => (t, Report (missing r ++ [key]) (unexpected r) (mismatched r))
        end in
      let '(rest', r'') := load_entries prefix sd rest r' in
      ((name, t') :: rest', r'')
  end.

(** [s.split('.', 1)]: the part before the first dot, and whether there is one. *)
Fixpoint split_dot (s : string) : string * bool :=
  match s with
  | EmptyString => (EmptyString, false)
  | String c s' =>
      if Ascii.eqb c "."%char then (EmptyString, true)
      else let '(hd, dot) := split_dot s' in (String c hd, dot)
  end.

Fixpoint drop_string (n : nat) (s : string) : string :=
  match n, s with
  | O, _ => s
  | S n', String _ s' => drop_string n' s'
  | S _, EmptyString => EmptyString
  end.

(** The keys of [sd] under [prefix] that name nothing of the module: a key
    [prefix + a + '.' + ...] needs a child [a], a key [prefix + a] a local
    entry [a]. *)
Definition name_in (x : string) (l : list string) : bool :=
  existsb (String.eqb x) l.

Definition is_unexpected (prefix : string) (n : node) (key : string) : bool :=
  String.prefix prefix key &&
  let '(hd, dot) := split_dot (drop_string (String.length prefix) key) in
  if dot then negb (name_in hd (n_children n).*1)
  else negb (name_in hd (n_params n ++ n_buffers n).*1).

Definition unexpected_here (prefix : string) (sd : sdict) (n : node) : list string :=
  List.filter (is_unexpected prefix n) (keys sd).

(** Module.load_state_dict, strict: this module's entries, then the children. *)
Fixpoint load_from (fuel : nat) (prefix : string) (sd : sdict) (h : nat)
    (st : list node * report) : option (list node * report) :=
  match fuel with
  | O => None
  | S fuel' =>
      let '(hp, r) := st in
      n ← hp !! h;
      let '(ps, r1) := load_entries prefix sd (n_params n) r in
      let '(bs, r2) := load_entries prefix sd (n_buffers n) r1 in
      let r3 := Report (missing r2) (unexpected r2 ++ unexpected_here prefix sd n)
                       (mismatched r2) in
      let n' := Node (n_class n) (n_init n) ps bs (n_children n) in
      foldl (fun acc c => st' ← acc; load_from fuel' (prefix +:+ c.1 +:+ ".") sd c.2 st')
            (Some (<[h := n']> hp, r3)) (n_children n)
  end.

Definition load_state_dict (hp : list node) (h : nat) (sd : sdict)
  : option (list node * report) :=
  load_from (S (length hp)) "" sd h (hp, Report [] [] []).

(** *** The handler: the framework calls of the save/load notebook *)

Section Handler.

Variable nm : numerics.

Definition ok (v : val) (w : world) : world * (exn + val) := (w, inr v).
Definition raise (cls msg : string) (w : world) : world * (exn + val) :=
  (w, inl (Exn cls msg)).

Definition alloc (n : node) (w : world) : world * nat :=
  (World (heap w ++ [n]) (files w) (rng w), length (heap w)).

Definition scalar_tensor (x : scalar) : tensor := Tensor [] [x].
Definition full (n : nat) (x : scalar) : tensor := Tensor [n] (replicate n x).

(** gpytorch.constraints.Interval and its subclasses keep their bounds as
    buffers. *)
Definition constraint (cls : string) (lower upper : scalar) : node :=
  Node cls true []
    [("lower_bound", scalar_tensor lower); ("upper_bound", scalar_tensor upper)] [].

Definition GaussianLikelihood (w : world) : world * nat :=
  let '(w, c) := alloc (constraint "GreaterThan" (F 1 (-4)) FInf) w in
  let '(w, nc) := alloc (Node "HomoskedasticNoise" true
                           [("raw_noise", Tensor [1] [F 0 0])] []
                           [("raw_noise_constraint", c)]) w in
  alloc (Node "GaussianLikelihood" true [] [] [("noise_covar", nc)]) w.

Definition ConstantMean (w : world) : world * nat :=
  alloc (Node "ConstantMean" true [("raw_constant", scalar_tensor (F 0 0))] [] []) w.

Definition RBFKernel (w : world) : world * nat :=
  let '(w, c) := alloc (constraint "Positive" (F 0 0) FInf) w in
  alloc (Node "RBFKernel" true
           [("raw_lengthscale", Tensor [1; 1] [F 0 0])] []
           [("raw_lengthscale_constraint", c)]) w.

Definition ScaleKernel (base_kernel : nat) (w : world) : world * nat :=
  let '(w, c) := alloc (constraint "Positive" (F 0 0) FInf) w in
  alloc (Node "ScaleKernel" true
           [("raw_outputscale", scalar_tensor (F 0 0))] []
           [("base_kernel", base_kernel); ("raw_outputscale_constraint", c)]) w.

(** torch.nn.Linear draws its weight, then its bias. *)
Definition Linear (i o : nat) (w : world) : world * nat :=
  let weight := Tensor [o; i] (uniform nm (rng w) i (o * i)) in
  let bias := Tensor [o] (uniform nm (S (rng w)) i o) in
  alloc (Node "Linear" true [("weight", weight); ("bias", bias)] [] [])
        (World (heap w) (files w) (S (S (rng w)))).

Definition BatchNorm1d (n : nat) (w : world) : world * nat :=
  alloc (Node "BatchNorm1d" true
           [("weight", full n (F 1 0)); ("bias", full n (F 0 0))]
           [("running_mean", full n (F 0 0)); ("running_var", full n (F 1 0));
            ("num_batches_tracked", scalar_tensor (Int 0))] []) w.

Definition ReLU (w : world) : world * nat :=
  alloc (Node "ReLU" true [] [] []) w.

Definition objects (args : list val) : option (list nat) :=
  mapM (fun v => match v with VObj h => Some h | _ => None end) args.

(** torch.nn.Sequential names its children by position. *)
Definition Sequential (layers : list nat) (w : world) : world * nat :=
  alloc (Node "Sequential" true [] [] (imap (fun i h => (pretty i, h)) layers)) w.

Fixpoint set_entry {A} (name : string) (x : A) (l : list (string * A))
  : list (string * A) :=
  match l with
  | [] => [(name, x)]
  | (k, y) :: l' =>
      if String.eqb k name then (k, x) :: l' else (k, y) :: set_entry name x l'
  end.

Fixpoint get_entry {A} (name : string) (l : list (string * A)) : option A :=
  match l with
  | [] => None
  | (k, y) :: l' => if String.eqb k name then Some y else get_entry name l'
  end.

Definition set_node (h : nat) (n : node) (w : world) : world :=
  World (<[h := n]> (heap w)) (files w) (rng w).

(** A hyperparameter setter of gpytorch ([kernel.outputscale = x]): the raw
    parameter receives the inverse transform of the value, at its own shape. *)
Definition initialize (raw : string) (x : scalar) (n : node) : node :=
  match get_entry raw (n_params n) with
  | Some t =>
      Node (n_class n) (n_init n)
        (set_entry raw (Tensor (shape t) (map (fun _ => inv_softplus nm x) (data t)))
           (n_params n))
        (n_buffers n) (n_children n)
  | None => n
  end.

Definition do_setattr (h : nat) (name : string) (v : val) (w : world)
  : world * (exn + val) :=
  match heap w !! h with
  | None => raise "ReferenceError" "no such object" w
  | Some n =>
      match v with
      | VObj c =>
          if n_init n then
            ok VNone (set_node h (Node (n_class n) (n_init n) (n_params n)
                                   (n_buffers n) (set_entry name c (n_children n))) w)
          else raise "AttributeError"
                 "cannot assign module before Module.__init__() call" w
      | VNum x =>
          if String.eqb (n_class n) "ScaleKernel" && String.eqb name "outputscale"
          then ok VNone (set_node h (initialize "raw_outputscale" x n) w)
          else if String.eqb (n_class n) "RBFKernel" && String.eqb name "lengthscale"
          then ok VNone (set_node h (initialize "raw_lengthscale" x n) w)
          else ok VNone w
      | _ => ok VNone w
      end
  end.

Definition do_getattr (h : nat) (name : string) (w : world) : world * (exn + val) :=
  match heap w !! h with
  | None => raise "ReferenceError" "no such object" w
  | Some n =>
      match get_entry name (n_children n) with
      | Some c => ok (VObj c) w
      | None =>
          match get_entry name (n_params n ++ n_buffers n) with
          | Some t => ok (VTensor t) w
          | None => raise "AttributeError" name w
          end
      end
  end.

Definition ExactGP_init (self likelihood : nat) (w : world) : world * (exn + val) :=
  match heap w !! self, heap w !! likelihood with
  | Some n, Some l =>
      if String.eqb (n_class l) "GaussianLikelihood" then
        ok VNone (set_node self (Node (n_class n) true (n_params n) (n_buffers n)
                                   (set_entry "likelihood" likelihood (n_children n))) w)
      else raise "RuntimeError" "ExactGP can only handle Gaussian likelihoods" w
  | _, _ => raise "ReferenceError" "no such object" w
  end.

Definition do_state_dict (h : nat) (w : world) : world * (exn + val) :=
  match state_dict (heap w) h with
  | Some d => ok (VDict d) w
  | None => raise "RecursionError" "maximum recursion depth exceeded" w
  end.

(** Strict loading: the entries that match are copied even when the call
    then raises. *)
Definition do_load_state_dict (h : nat) (sd : sdict) (w : world)
  : world * (exn + val) :=
  match load_state_dict (heap w) h sd with
  | Some (hp', r) =>
      let w' := World hp' (files w) (rng w) in
      if clean r then ok (VKeys (missing r) (unexpected r)) w'
      else raise "RuntimeError" "Error(s) in loading state_dict" w'
  | None => raise "RecursionError" "maximum recursion depth exceeded" w
  end.

Definition to_nat (x : scalar) : option nat :=
  match x with
  | Int z => if (0 <=? z)%Z then Some (Z.to_nat z) else None
  | _ => None
  end.

Definition type_error (w : world) : world * (exn + val) :=
  raise "TypeError" "bad arguments" w.

Definition do_func (name : string) (args : list val) (w : world)
  : world * (exn + val) :=
  if String.eqb name "torch.linspace" then
    match args with
    | [VNum a; VNum b; VNum n] => ok (VTensor (linspace nm a b n)) w
    | _ => type_error w
    end
  else if String.eqb name "torch.sin" then
    match args with
    | [VTensor t] => ok (VTensor (t_sin nm t)) w
    | _ => type_error w
    end
  else if String.eqb name "torch.randn" then
    match args with
    | [VSize sz] =>
        ok (VTensor (randn nm (rng w) sz)) (World (heap w) (files w) (S (rng w)))
    | _ => type_error w
    end
  else if String.eqb name "gpytorch.likelihoods.GaussianLikelihood" then
    match args with
    | [] => let '(w', h) := GaussianLikelihood w in ok (VObj h) w'
    | _ => type_error w
    end
  else if String.eqb name "gpytorch.models.ExactGP.__init__" then
    match args with
    | [VObj self; VTensor _; VTensor _; VObj likelihood] =>
        ExactGP_init self likelihood w
    | _ => type_error w
    end
  else if String.eqb name "gpytorch.means.ConstantMean" then
    match args with
    | [] => let '(w', h) := ConstantMean w in ok (VObj h) w'
    | _ => type_error w
    end
  else if String.eqb name "gpytorch.kernels.RBFKernel" then
    match args with
    | [] => let '(w', h) := RBFKernel w in ok (VObj h) w'
    | _ => type_error w
    end
  else if String.eqb name "gpytorch.kernels.ScaleKernel" then
    match args with
    | [VObj bk] => let '(w', h) := ScaleKernel bk w in ok (VObj h) w'
    | _ => type_error w
    end
  else if String.eqb name "torch.nn.Linear" then
    match args with
    | [VNum i; VNum o] =>
        match to_nat i, to_nat o with
        | Some i, Some o => let '(w', h) := Linear i o w in ok (VObj h) w'
        | _, _ => type_error w
        end
    | _ => type_error w
    end
  else if String.eqb name "torch.nn.BatchNorm1d" then
    match args with
    | [VNum n] =>
        match to_nat n with
        | Some n => let '(w', h) := BatchNorm1d n w in ok (VObj h) w'
        | None => type_error w
        end
    | _ => type_error w
    end
  else if String.eqb name "torch.nn.ReLU" then
    match args with
    | [] => let '(w', h) := ReLU w in ok (VObj h) w'
    | _ => type_error w
    end
  else if String.eqb name "torch.nn.Sequential" then
    match objects args with
    | Some layers => let '(w', h) := Sequential layers w in ok (VObj h) w'
    | None => type_error w
    end
  else if String.eqb name "torch.save" then
    match args with
    | [v; VStr path] => ok VNone (World (heap w) (<[path := v]> (files w)) (rng w))
    | _ => type_error w
    end
  else if String.eqb name "torch.load" then
    match args with
    | [VStr path] =>
        match files w !! path with
        | Some v => ok v w
        | None => raise "FileNotFoundError" path w
        end
    | _ => type_error w
    end
  else raise "NotImplementedError" name w.

Definition do_method (name : string) (args : list val) (w : world)
  : world * (exn + val) :=
  if String.eqb name "__mul__" then
    match args with
    | [VTensor t; VNum x] => ok (VTensor (t_mul nm t x)) w
    | _ => type_error w
    end
  else if String.eqb name "__add__" then
    match args with
    | [VTensor a; VTensor b] => ok (VTensor (t_add nm a b)) w
    | _ => type_error w
    end
  else if String.eqb name "size" then
    match args with
    | [VTensor t] => ok (VSize (shape t)) w
    | _ => type_error w
    end
  else if String.eqb name "state_dict" then
    match args with
    | [VObj h] => do_state_dict h w
    | _ => type_error w
    end
  else if String.eqb name "load_state_dict" then
    match args with
    | [VObj h; VDict sd] => do_load_state_dict h sd w
    | _ => type_error w
    end
  else raise "NotImplementedError" name w.

Definition torch : handler world := fun f args w =>
  match f with
  | Import | Magic | ClassDef => ok VNone w
  | New =>
      match args with
      | [VStr cls] => let '(w', h) := alloc (Node cls false [] [] []) w in ok (VObj h) w'
      | _ => type_error w
      end
  | Func name => do_func name args w
  | Method name => do_method name args w
  | GetAttr =>
      match args with
      | [VObj h; VStr name] => do_getattr h name w
      | _ => type_error w
      end
  | SetAttr =>
      match args with
      | [VObj h; VStr name; v] => do_setattr h name v w
      | _ => type_error w
      end
  end.

End Handler.

(** The numbers of the run recorded in the notebook, as far as its outputs
    show them (four decimals): the two raw hyperparameters and the weights
    and biases drawn for the two linear layers.  The training data is never
    printed; it is filled with its first point. *)
Definition recorded_numerics : numerics := {|
  linspace := fun a b n =>
    match n with
    | Int z => Tensor [Z.to_nat z] (replicate (Z.to_nat z) a)
    | _ => Tensor [0] []
    end;
  t_sin := fun t => t;
  t_mul := fun t _ => t;
  t_add := fun a _ => a;
  randn := fun g sz => Tensor sz (replicate (foldr Nat.mul 1 sz) (F 0 0));
  uniform := fun g _ n =>
    match g with
    | 1 => [F (-2407) (-4); F 6045 (-4)]
    | 2 => [F (-2979) (-4); F (-7298) (-4)]
    | 3 => [F (-4799) (-4); F (-1244) (-4); F (-4018) (-4); F (-1852) (-4)]
    | 4 => [F (-2166) (-4); F 2943 (-4)]
    | _ => replicate n (F 0 0)
    end;
  inv_softplus := fun x =>
    match x with
    | F 12 (-1) => F 8416 (-4)
    | F 22 (-1) => F 20826 (-4)
    | _ => x
    end
|}.

End Torch.
(** ** Stand-ins for the outside world *)

Module Toy.

(** In-place tensor methods end in a single underscore in torch. *)
Definition in_place (f : fn) : bool :=
  match f with
  | Method name =>
      match String.rev name with
      | String "_" (String c _) => negb (Ascii.eqb c "_")
      | _ => false
      end
  | _ => false
  end.

(** A world that only counts: the optimizer steps taken and the in-place
    tensor operations performed. *)
Record counters := Counters { steps : nat; touched : nat }.

(** Every call returns None. *)
Definition quiet : handler counters := fun f _ c =>
  if bool_decide (f = Method "step") then (Counters (S (steps c)) (touched c), inr VNone)
  else if in_place f then (Counters (steps c) (S (touched c)), inr VNone)
  else (c, inr VNone).

(** As [quiet], except that one function raises. *)
Definition failing (bad : fn) : handler counters := fun f args c =>
  if bool_decide (f = bad) then (c, inl (Exn "RuntimeError" "CUDA error: out of memory"))
  else quiet f args c.

Definition start : counters := Counters 0 0.

End Toy.

(** ** The three notebooks, by name *)

Inductive notebook_id := SaveLoadNb | SpectralMixtureNb | CIQNb.

(** A run of a notebook is given by the flag of the CIQ notebook and the
    environment; the values a notebook displays are dropped here. *)
Definition program (nb : notebook_id) (HAVE_KEOPS : bool) (environ : environ_t)
  : py unit :=
  match nb with
  | SaveLoadNb => SaveLoad.notebook;; Ret tt
  | SpectralMixtureNb => SpectralMixture.notebook environ
  | CIQNb => CIQ.notebook HAVE_KEOPS environ
  end.

Definition all_notebooks : list notebook_id := [SaveLoadNb; SpectralMixtureNb; CIQNb].

Inductive trainer := SpectralMixtureTrainer | CIQTrainer.

(** The training cell of a training notebook (cell 7, cell 6). *)
Definition training_cell (t : trainer) (environ : environ_t)
    (train_x train_y likelihood model : val) : py unit :=
  match t with
  | SpectralMixtureTrainer =>
      SpectralMixture.cell_7 environ train_x train_y likelihood model
  | CIQTrainer =>
      CIQ.cell_6 environ (CIQ.Names train_x train_y model likelihood)
  end.

Definition training_loop_of (t : trainer) (n : nat)
    (optimizer model mll train_x train_y : val) : py unit :=
  match t with
  | SpectralMixtureTrainer =>
      SpectralMixture.training_loop n optimizer model mll train_x train_y
  | CIQTrainer => CIQ.training_loop n optimizer model mll train_x train_y
  end.

Definition full_iterations (t : trainer) : nat :=
  match t with SpectralMixtureTrainer => 100 | CIQTrainer => 50 end.

(** ** Runs, and what can be said of them *)

(** A program without [with] blocks. *)
Fixpoint with_free {R : Type} (p : py R) : Prop :=
  match p with
  | Ret _ => True
  | Call _ _ k => forall v, with_free (k v)
  | With _ _ _ => False
  end.

(** Every call on every path of the program satisfies [P]. *)
Inductive only (P : fn -> list val -> Prop) : forall {R : Type}, py R -> Prop :=
| only_ret {R : Type} (r : R) : only P (Ret r)
| only_call {R : Type} f args (k : val -> py R) :
    P f args -> (forall v, only P (k v)) -> only P (Call f args k)
| only_with {R : Type} m body (k : py R) :
    P (Method "__enter__") [m] -> (forall exc, P (Method "__exit__") [m; exc]) ->
    only P body -> only P k -> only P (With m body k).

(** On every path of the program there is a call satisfying [P]. *)
Inductive must (P : fn -> list val -> Prop) : forall {R : Type}, py R -> Prop :=
| must_here {R : Type} f args (k : val -> py R) : P f args -> must P (Call f args k)
| must_later {R : Type} f args (k : val -> py R) :
    (forall v, must P (k v)) -> must P (Call f args k)
| must_body {R : Type} m body (k : py R) : must P body -> must P (With m body k)
| must_after {R : Type} m body (k : py R) : must P k -> must P (With m body k).

Section RunProperties.

Context {S : Type} (h : handler S).

(** A run in which no call raised: its trace, final state and value. *)
Definition ok_run {R : Type} (p : py R) (s : S) (tr : list event) (s' : S) (r : R)
  : Prop :=
  run h p s = (tr, s', inr r) /\ Forall (fun ev => succeeded ev = true) tr.

(** The context managers of the framework (torch.no_grad, gpytorch.settings)
    do not raise on exit and do not swallow exceptions: [__exit__] returns
    a false value. *)
Definition exits_quiet : Prop :=
  forall args s, exists s' v,
    h (Method "__exit__") args s = (s', inr v) /\ truthy v = false.

(** The run ends with the exception of the first call that raised, and after
    that call nothing runs but the [__exit__] of the enclosing [with] blocks;
    a run that returns saw no call raise. *)
Definition propagates {R : Type} (p : py R) : Prop :=
  forall s,
    match result_of h p s with
    | inl e =>
        exists before ev after,
          trace_of h p s = before ++ ev :: after /\
          Forall (fun ev' => succeeded ev' = true) before /\
          ev_res ev = inl e /\
          Forall (fun ev' => ev_fn ev' = Method "__exit__" /\ succeeded ev' = true) after
    | inr _ => Forall (fun ev => succeeded ev = true) (trace_of h p s)
    end.

End RunProperties.

(** Whether some call of a trace passes a test. *)
Definition any_call (test : fn -> list val -> bool) (tr : list event) : bool :=
  existsb (fun ev => test (ev_fn ev) (ev_args ev)) tr.

Definition calls_to (f : fn) : fn -> list val -> bool :=
  fun f' _ => bool_decide (f' = f).

Definition count_calls (f : fn) (tr : list event) : nat :=
  length (List.filter (fun ev => bool_decide (ev_fn ev = f)) tr).

(** ** Training loops *)

(** Calls that only report progress. *)
Definition reporting_fns : list fn :=
  [Method "item"; GetAttr; Method "__mod__"; Func "print"].

(** The calls of one pass of a training loop: gradients zeroed, the model
    evaluated on [train_x], the marginal log-likelihood of that output
    against [train_y], its negation as the loss, backpropagation from the
    loss, some reporting, one optimizer step. *)
Inductive iteration (optimizer model mll train_x train_y : val) : list event -> Prop :=
| iteration_intro r0 output l loss r1 report r2 :
    Forall (fun ev => ev_fn ev ∈ reporting_fns /\ succeeded ev = true) report ->
    iteration optimizer model mll train_x train_y
      ([Ev (Method "zero_grad") [optimizer] (inr r0);
        Ev (Method "__call__") [model; train_x] (inr output);
        Ev (Method "__call__") [mll; output; train_y] (inr l);
        Ev (Method "__neg__") [l] (inr loss);
        Ev (Method "backward") [loss] (inr r1)] ++ report ++
       [Ev (Method "step") [optimizer] (inr r2)]).

Definition iterations (optimizer model mll train_x train_y : val) (n : nat)
    (tr : list event) : Prop :=
  exists passes, tr = concat passes /\ length passes = n /\
    Forall (iteration optimizer model mll train_x train_y) passes.

(** The calls before the loop: [optimizer] is an Adam optimizer over the
    model's parameters, [mll] the exact marginal log-likelihood. *)
Inductive adam_setup (model likelihood optimizer mll : val) : list event -> Prop :=
| adam_setup_intro r1 r2 r3 params :
    adam_setup model likelihood optimizer mll
      [Ev Import [VStr "os"] (inr r1);
       Ev (Method "train") [model] (inr r2);
       Ev (Method "train") [likelihood] (inr r3);
       Ev (Method "parameters") [model] (inr params);
       Ev (Func "torch.optim.Adam") [params; VKw "lr" (VNum (F 1 (-1)))] (inr optimizer);
       Ev (Func "gpytorch.mlls.ExactMarginalLogLikelihood") [likelihood; model] (inr mll)].

Definition loop_fns : list fn :=
  [Method "zero_grad"; Method "__call__"; Method "__neg__"; Method "backward";
   Method "step"] ++ reporting_fns.

(** What a training loop calls, and what it hands to the model and to the
    marginal log-likelihood. *)
Definition loop_call (model mll train_x train_y : val) (f : fn) (args : list val)
  : Prop :=
  f ∈ loop_fns /\
  (f = Method "__call__" ->
   args = [model; train_x] \/ exists output, args = [mll; output; train_y]).

(** ** Parameter dictionaries in a trace *)

Definition is_dict_fn (f : fn) : bool :=
  match f with
  | Func name => String.eqb name "torch.save" || String.eqb name "torch.load"
  | Method name => String.eqb name "state_dict" || String.eqb name "load_state_dict"
  | _ => false
  end.

Definition is_dict_call (ev : event) : bool := is_dict_fn (ev_fn ev).

Definition dict_calls (tr : list event) : list event := List.filter is_dict_call tr.

(** The dictionaries that pass through those calls: what [state_dict] and
    [torch.load] return, what [torch.save] and [load_state_dict] are given. *)
Definition dictionaries (tr : list event) : list val :=
  flat_map (fun ev =>
    let f := ev_fn ev in
    if bool_decide (f = Method "state_dict") || bool_decide (f = Func "torch.load")
    then match ev_res ev with inr v => [v] | inl _ => [] end
    else if bool_decide (f = Func "torch.save")
    then match ev_args ev with d :: _ => [d] | [] => [] end
    else if bool_decide (f = Method "load_state_dict")
    then match ev_args ev with _ :: d :: _ => [d] | _ => [] end
    else []) tr.

(** The dictionary calls of the save/load notebook, in order: each save is
    given the dictionary just obtained and a file name, each load the same
    file name, and each [load_state_dict] a new model and the value just
    loaded. *)
Inductive saveload_dict_calls : list event -> Prop :=
| saveload_dict_calls_intro m1 d5 d6 r6 l7 m2 o7 d8 m3 d11 d12 r12 l12 m4 o12 d13 :
    saveload_dict_calls
      [Ev (Method "state_dict") [m1] (inr d5);
       Ev (Method "state_dict") [m1] (inr d6);
       Ev (Func "torch.save") [d6; VStr "model_state.pth"] (inr r6);
       Ev (Func "torch.load") [VStr "model_state.pth"] (inr l7);
       Ev (Method "load_state_dict") [m2; l7] (inr o7);
       Ev (Method "state_dict") [m2] (inr d8);
       Ev (Method "state_dict") [m3] (inr d11);
       Ev (Method "state_dict") [m3] (inr d12);
       Ev (Func "torch.save") [d12; VStr "my_gp_with_nn_model.pth"] (inr r12);
       Ev (Func "torch.load") [VStr "my_gp_with_nn_model.pth"] (inr l12);
       Ev (Method "load_state_dict") [m4; l12] (inr o12);
       Ev (Method "state_dict") [m4] (inr d13)].

(** The call [c] receives, as its argument number [pos], the value that the
    call before it, a call of [producer], returned. *)
Definition handed (prev : option event) (producer : fn) (pos : nat) (c : event)
  : Prop :=
  exists p v, prev = Some p /\ ev_fn p = producer /\ ev_res p = inr v /\
              ev_args c !! pos = Some v.

Fixpoint unaltered_from (prev : option event) (tr : list event) : Prop :=
  match tr with
  | [] => True
  | c :: tr' =>
      (ev_fn c = Func "torch.save" -> handed prev (Method "state_dict") 0 c) /\
      (ev_fn c = Method "load_state_dict" -> handed prev (Func "torch.load") 1 c) /\
      unaltered_from (Some c) tr'
  end.

(** Among the dictionary calls of a trace, what is saved is what
    [state_dict] just returned and what is loaded into a model is what
    [torch.load] just returned. *)
Definition unaltered (tr : list event) : Prop := unaltered_from None (dict_calls tr).

(** ** What a notebook does *)

Record activities := Activities {
  defines_model : bool;    (* a subclass of the framework's model class *)
  trains : bool;           (* backpropagation and optimizer steps *)
  saves_and_loads : bool;  (* torch.save, torch.load, load_state_dict *)
  plots : bool             (* matplotlib *)
}.

Definition is_model_class : fn -> list val -> bool := fun f args =>
  bool_decide (f = ClassDef) &&
  match args with
  | [VStr _; VName base] => String.eqb base "gpytorch.models.ExactGP"
  | _ => false
  end.

Definition is_plot : fn -> list val -> bool := fun f _ =>
  bool_decide (f ∈ [Func "matplotlib.pyplot.subplots"; Method "plot";
                    Method "fill_between"; Method "legend"; Method "set_ylim"]).

Definition performed (tr : list event) : activities := {|
  defines_model := any_call is_model_class tr;
  trains := any_call (calls_to (Method "backward")) tr &&
            any_call (calls_to (Method "step")) tr;
  saves_and_loads := any_call (calls_to (Func "torch.save")) tr &&
                     any_call (calls_to (Func "torch.load")) tr &&
                     any_call (calls_to (Method "load_state_dict")) tr;
  plots := any_call is_plot tr
|}.

(** What each notebook does, read off its cells. *)
Definition expected (nb : notebook_id) : activities :=
  match nb with
  | SaveLoadNb => Activities true false true false
  | SpectralMixtureNb => Activities true true false true
  | CIQNb => Activities true true false false
  end.

(** ** Names of dictionary entries *)

Module Names.

Definition code (c : ascii) : nat := nat_of_ascii c.
Definition is_letter (c : ascii) : bool :=
  (65 <=? code c) && (code c <=? 90) || (97 <=? code c) && (code c <=? 122).
Definition is_digit (c : ascii) : bool := (48 <=? code c) && (code c <=? 57).
Definition is_underscore (c : ascii) : bool := code c =? 95.

Fixpoint all_chars (P : ascii -> bool) (s : string) : bool :=
  match s with
  | EmptyString => true
  | String c s' => P c && all_chars P s'
  end.

(** An identifier: a letter or underscore, then letters, digits, underscores. *)
Definition identifier (s : string) : bool :=
  match s with
  | EmptyString => false
  | String c s' =>
      (is_letter c || is_underscore c) &&
      all_chars (fun c => is_letter c || is_digit c || is_underscore c) s'
  end.

(** A position: one or more digits. *)
Definition position (s : string) : bool :=
  match s with
  | EmptyString => false
  | _ => all_chars is_digit s
  end.

(** [s.split('.')] *)
Fixpoint split_dots (acc s : string) : list string :=
  match s with
  | EmptyString => [acc]
  | String c s' =>
      if Ascii.eqb c "." then acc :: split_dots EmptyString s'
      else split_dots (acc +:+ String c EmptyString) s'
  end.
Definition segments (s : string) : list string := split_dots EmptyString s.

(** Identifiers joined by '.'. *)
Definition dotted_identifiers (key : string) : bool :=
  forallb identifier (segments key).

(** Identifiers or positions joined by '.'. *)
Definition dotted_name (key : string) : bool :=
  forallb (fun seg => identifier seg || position seg) (segments key).

End Names.

(** ** The save/load notebook on the framework model *)

Module Recorded.
Import Torch.

(** The dictionary printed under cells 5 and 8 (and the first ten lines of
    cells 11 and 13): keys, shapes and bounds as printed; the two learned
    raw values are parameters. *)
Definition gp_entries (raw_outputscale raw_lengthscale : scalar) : sdict :=
  [("likelihood.noise_covar.raw_noise", Tensor [1] [F 0 0]);
   ("likelihood.noise_covar.raw_noise_constraint.lower_bound", Tensor [] [F 1 (-4)]);
   ("likelihood.noise_covar.raw_noise_constraint.upper_bound", Tensor [] [FInf]);
   ("mean_module.raw_constant", Tensor [] [F 0 0]);
   ("covar_module.raw_outputscale", Tensor [] [raw_outputscale]);
   ("covar_module.base_kernel.raw_lengthscale", Tensor [1; 1] [raw_lengthscale]);
   ("covar_module.base_kernel.raw_lengthscale_constraint.lower_bound", Tensor [] [F 0 0]);
   ("covar_module.base_kernel.raw_lengthscale_constraint.upper_bound", Tensor [] [FInf]);
   ("covar_module.raw_outputscale_constraint.lower_bound", Tensor [] [F 0 0]);
   ("covar_module.raw_outputscale_constraint.upper_bound", Tensor [] [FInf])].

(** The further lines printed under cells 11 and 13; the drawn weights and
    biases of the two linear layers are parameters. *)
Definition nn_entries (w0 b0 w3 b3 : list scalar) : sdict :=
  [("feature_extractor.0.weight", Tensor [2; 1] w0);
   ("feature_extractor.0.bias", Tensor [2] b0);
   ("feature_extractor.1.weight", Tensor [2] [F 1 0; F 1 0]);
   ("feature_extractor.1.bias", Tensor [2] [F 0 0; F 0 0]);
   ("feature_extractor.1.running_mean", Tensor [2] [F 0 0; F 0 0]);
   ("feature_extractor.1.running_var", Tensor [2] [F 1 0; F 1 0]);
   ("feature_extractor.1.num_batches_tracked", Tensor [] [Int 0]);
   ("feature_extractor.3.weight", Tensor [2; 2] w3);
   ("feature_extractor.3.bias", Tensor [2] b3);
   ("feature_extractor.4.weight", Tensor [2] [F 1 0; F 1 0]);
   ("feature_extractor.4.bias", Tensor [2] [F 0 0; F 0 0]);
   ("feature_extractor.4.running_mean", Tensor [2] [F 0 0; F 0 0]);
   ("feature_extractor.4.running_var", Tensor [2] [F 1 0; F 1 0]);
   ("feature_extractor.4.num_batches_tracked", Tensor [] [Int 0])].

(** The dictionary of the first model, after cell 4 set its two
    hyperparameters. *)
Definition first_dict (nm : numerics) : sdict :=
  gp_entries (inv_softplus nm (F 12 (-1))) (inv_softplus nm (F 22 (-1))).

(** The dictionary of the second model, built when the generator has
    advanced once from [g] (by the noise of cell 2). *)
Definition second_dict (nm : numerics) (g : nat) : sdict :=
  gp_entries (F 0 0) (F 0 0) ++
  nn_entries (uniform nm (1 + g) 1 2) (uniform nm (2 + g) 1 2)
             (uniform nm (3 + g) 2 4) (uniform nm (4 + g) 2 2).

Definition display (nm : numerics) (g : nat) : SaveLoad.displayed := {|
  SaveLoad.out_5 := VDict (first_dict nm);
  SaveLoad.out_7 := VKeys [] [];
  SaveLoad.out_8 := VDict (first_dict nm);
  SaveLoad.out_11 := VDict (second_dict nm g);
  SaveLoad.out_12 := VKeys [] [];
  SaveLoad.out_13 := VDict (second_dict nm g)
|}.

Definition checkpoints (nm : numerics) (g : nat) : gmap string val :=
  {[ "model_state.pth" := VDict (first_dict nm);
     "my_gp_with_nn_model.pth" := VDict (second_dict nm g) ]}.

(** A fresh kernel: nothing allocated, no file, the generator at [g]. *)
Definition fresh (g : nat) : world := World [] ∅ g.

(** The two model classes of the notebook. *)
Definition classes : list pyclass :=
  [SaveLoad.ExactGPModel; SaveLoad.GPWithNNFeatureExtractor].

(** A model of class [Csaved] is built and saved as in the notebook, the file
    is read back and a new model of class [Cnew] is built on the same data
    and likelihood.  Returns the dictionary read, the new model and the new
    model's own dictionary; the load itself is left to the caller. *)
Definition save_then_build (Csaved Cnew : pyclass) : py (val * val * val) :=
  SaveLoad.cell_1;;
  xy <- SaveLoad.cell_2;;
  likelihood <- func "gpytorch.likelihoods.GaussianLikelihood" [];;
  model <- instantiate Csaved xy.1 xy.2 likelihood;;
  sd <- meth model "state_dict" [];;
  func "torch.save" [sd; VStr "checkpoint.pth"];;
  state_dict <- func "torch.load" [VStr "checkpoint.pth"];;
  model' <- instantiate Cnew xy.1 xy.2 likelihood;;
  own <- meth model' "state_dict" [];;
  Ret (state_dict, model', own).

Definition key_set (d : sdict) : gset string := list_to_set (keys d).

(** Strict loading reported that all keys matched. *)
Definition all_keys_matched (r : world * (exn + val)) : Prop :=
  r.2 = inr (VKeys [] []).

Definition receivers (name : string) (tr : list event) : list val :=
  omap (fun ev => if bool_decide (ev_fn ev = Method name) then head (ev_args ev)
                  else None) tr.

(** The entries that are not trainable parameters. *)
Definition bound_keys : list string :=
  ["likelihood.noise_covar.raw_noise_constraint.lower_bound";
   "likelihood.noise_covar.raw_noise_constraint.upper_bound";
   "covar_module.base_kernel.raw_lengthscale_constraint.lower_bound";
   "covar_module.base_kernel.raw_lengthscale_constraint.upper_bound";
   "covar_module.raw_outputscale_constraint.lower_bound";
   "covar_module.raw_outputscale_constraint.upper_bound"].

Definition batch_norm_buffer_keys : list string :=
  ["feature_extractor.1.running_mean"; "feature_extractor.1.running_var";
   "feature_extractor.1.num_batches_tracked";
   "feature_extractor.4.running_mean"; "feature_extractor.4.running_var";
   "feature_extractor.4.num_batches_tracked"].

End Recorded.

(** ** Further properties of runs *)

(** Context managers are entered and left by [with] only: the program calls
    neither [__enter__] nor [__exit__] itself. *)
Fixpoint no_manual_ctx {R : Type} (p : py R) : Prop :=
  match p with
  | Ret _ => True
  | Call f _ k =>
      f <> Method "__enter__" /\ f <> Method "__exit__" /\ forall v, no_manual_ctx (k v)
  | With _ body k => no_manual_ctx body /\ no_manual_ctx k
  end.

(** The [__enter__] and [__exit__] calls of a trace are nested: an entered
    manager (one whose [__enter__] returned) sits on the stack until its
    [__exit__], which is always that of the innermost entered manager; at
    the end nothing is left entered. *)
Fixpoint well_nested (stack : list val) (tr : list event) : Prop :=
  match tr with
  | [] => stack = []
  | ev :: tr' =>
      if bool_decide (ev_fn ev = Method "__enter__") then
        match ev_args ev, ev_res ev with
        | [m], inr _ => well_nested (m :: stack) tr'
        | [m], inl _ => well_nested stack tr'
        | _, _ => False
        end
      else if bool_decide (ev_fn ev = Method "__exit__") then
        match ev_args ev, stack with
        | m :: _, top :: rest => m = top /\ well_nested rest tr'
        | _, _ => False
        end
      else well_nested stack tr'
  end.

(** A program in two phases: its calls satisfy [A] up to some point and [B]
    from there on. *)
Inductive phased (A B : fn -> list val -> Prop) : forall {R : Type}, py R -> Prop :=
| phased_switch {R : Type} (p : py R) : only B p -> phased A B p
| phased_call {R : Type} f args (k : val -> py R) :
    A f args -> (forall v, phased A B (k v)) -> phased A B (Call f args k)
| phased_seq {X R : Type} (p : py X) (g : X -> py R) :
    only A p -> (forall a, phased A B (g a)) -> phased A B (bind p g).

(** As [only], but a continuation is followed only on the values the handler
    can return at that call. *)
Inductive only_on {S : Type} (h : handler S) (P : fn -> list val -> Prop)
  : forall {R : Type}, py R -> Prop :=
| only_on_ret {R : Type} (r : R) : only_on h P (Ret r)
| only_on_call {R : Type} f args (k : val -> py R) :
    P f args ->
    (forall s s' v, h f args s = (s', inr v) -> only_on h P (k v)) ->
    only_on h P (Call f args k)
| only_on_with {R : Type} m body (k : py R) :
    P (Method "__enter__") [m] -> (forall exc, P (Method "__exit__") [m; exc]) ->
    only_on h P body -> only_on h P k -> only_on h P (With m body k).

(** torch.cuda.is_available() answers with a false value. *)
Definition no_cuda {S : Type} (h : handler S) : Prop :=
  forall args s s' v,
    h (Func "torch.cuda.is_available") args s = (s', inr v) -> truthy v = false.

(** ** Training and prediction *)

Definition optimizing_fns : list fn :=
  [Method "zero_grad"; Method "backward"; Method "step"].

Definition predicting_fns : list fn :=
  [Method "eval"; Method "confidence_region"; Method "rsample"; Method "numpy";
   Func "matplotlib.pyplot.subplots"; Method "plot"; Method "fill_between"].

Definition not_in (fns : list fn) : fn -> list val -> Prop :=
  fun f _ => bool_decide (f ∈ fns) = false.

(** The training notebooks, by trainer. *)
Definition training_notebook (t : trainer) (HAVE_KEOPS : bool) (environ : environ_t)
  : py unit :=
  match t with
  | SpectralMixtureTrainer => SpectralMixture.notebook environ
  | CIQTrainer => CIQ.notebook HAVE_KEOPS environ
  end.

Definition progress_format (t : trainer) : string :=
  match t with
  | SpectralMixtureTrainer => "Iter %d/%d - Loss: %.3f"
  | CIQTrainer => "Iter %d/%d - Loss: %.3f   lengthscale: %.3f   noise: %.3f"
  end.

(** Pass number [i] (from 0) of [total]: after backpropagating from [loss]
    the pass reads [loss.item()], formats a line from [i + 1], [total], that
    number and possibly more, prints it, and only then steps. *)
Inductive progress_line (t : trainer) (optimizer : val) (total i : nat)
  : list event -> Prop :=
| progress_line_intro before loss r1 x between more line r2 r3 :
    Forall (fun ev => ev_fn ev ∈ reporting_fns) between ->
    progress_line t optimizer total i
      (before ++
       [Ev (Method "backward") [loss] (inr r1);
        Ev (Method "item") [loss] (inr x)] ++ between ++
       [Ev (Method "__mod__")
           [VStr (progress_format t);
            VTuple (VNum (Int (Z.of_nat i + 1)) :: VNum (Int (Z.of_nat total)) ::
                    x :: more)] (inr line);
        Ev (Func "print") [line] (inr r2);
        Ev (Method "step") [optimizer] (inr r3)]).

(** ** The model classes *)

Inductive class_id :=
| SaveLoadExactGP | SaveLoadGPWithNN | SpectralMixtureGP | CIQExactGP (HAVE_KEOPS : bool).

Definition class_of (c : class_id) : pyclass :=
  match c with
  | SaveLoadExactGP => SaveLoad.ExactGPModel
  | SaveLoadGPWithNN => SaveLoad.GPWithNNFeatureExtractor
  | SpectralMixtureGP => SpectralMixture.SpectralMixtureGPModel
  | CIQExactGP b => CIQ.ExactGPModel b
  end.

Definition has_feature_extractor (c : class_id) : bool :=
  match c with SaveLoadGPWithNN => true | _ => false end.

(** The calls of [forward]: the mean and the covariance module of [self] are
    both applied to [z], and the result is the multivariate normal of the
    two. *)
Definition gp_forward_calls (self z : val) (mm mean cm covar out : val) : list event :=
  [Ev GetAttr [self; VStr "mean_module"] (inr mm);
   Ev (Method "__call__") [mm; z] (inr mean);
   Ev GetAttr [self; VStr "covar_module"] (inr cm);
   Ev (Method "__call__") [cm; z] (inr covar);
   Ev (Func "gpytorch.distributions.MultivariateNormal") [mean; covar] (inr out)].

Definition feature_calls (self x : val) (fe z : val) : list event :=
  [Ev GetAttr [self; VStr "feature_extractor"] (inr fe);
   Ev (Method "__call__") [fe; x] (inr z)].

(** ** Construction in the save/load notebook *)

Definition is_construction_fn (f : fn) : bool :=
  bool_decide (f ∈ [Func "torch.linspace"; Method "__add__";
                    Func "gpytorch.likelihoods.GaussianLikelihood"; New;
                    Func "gpytorch.models.ExactGP.__init__";
                    Method "load_state_dict"]).

Definition construction_calls (tr : list event) : list event :=
  List.filter (fun ev => is_construction_fn (ev_fn ev)) tr.

(** The data, likelihoods and models of the save/load notebook: one pair of
    tensors for all four models, one likelihood for the first model and the
    model that replaces it, another for the second model and its
    replacement; the replacements are the models loaded into. *)
Inductive saveload_construction : list event -> Prop :=
| saveload_construction_intro train_x b d train_y l1 m1 r1 m2 r2 sd1 o1
                              l2 m3 r3 m4 r4 sd2 o2 :
    saveload_construction
      [Ev (Func "torch.linspace") [VNum (Int 0); VNum (Int 1); VNum (Int 100)]
          (inr train_x);
       Ev (Method "__add__") [b; d] (inr train_y);
       Ev (Func "gpytorch.likelihoods.GaussianLikelihood") [] (inr l1);
       Ev New [VStr "ExactGPModel"] (inr m1);
       Ev (Func "gpytorch.models.ExactGP.__init__") [m1; train_x; train_y; l1] (inr r1);
       Ev New [VStr "ExactGPModel"] (inr m2);
       Ev (Func "gpytorch.models.ExactGP.__init__") [m2; train_x; train_y; l1] (inr r2);
       Ev (Method "load_state_dict") [m2; sd1] (inr o1);
       Ev (Func "gpytorch.likelihoods.GaussianLikelihood") [] (inr l2);
       Ev New [VStr "GPWithNNFeatureExtractor"] (inr m3);
       Ev (Func "gpytorch.models.ExactGP.__init__") [m3; train_x; train_y; l2] (inr r3);
       Ev New [VStr "GPWithNNFeatureExtractor"] (inr m4);
       Ev (Func "gpytorch.models.ExactGP.__init__") [m4; train_x; train_y; l2] (inr r4);
       Ev (Method "load_state_dict") [m4; sd2] (inr o2)].

(** ** Sampling in the CIQ notebook *)

Definition is_sampling_fn (f : fn) : bool :=
  bool_decide (f ∈ [Func "torch.no_grad"; Func "gpytorch.settings.ciq_samples";
                    Func "gpytorch.settings.num_contour_quadrature";
                    Func "gpytorch.settings.minres_tolerance";
                    Func "gpytorch.settings.fast_computations";
                    Method "__enter__"; Method "__exit__"; Method "__call__";
                    Method "rsample"]).

Definition sampling_calls (tr : list event) : list event :=
  List.filter (fun ev => is_sampling_fn (ev_fn ev)) tr.

(** Cell 8: under no_grad, one predictive distribution is computed; a sample
    is drawn from it with CIQ switched on, 10 quadrature sites and minres
    tolerance 1e-4; these three settings are left, innermost first; then a
    sample is drawn from the same distribution with
    covar_root_decomposition off. *)
Inductive ciq_sampling (model likelihood test_x : val) : list event -> Prop :=
| ciq_sampling_intro ng e0 p pred ciq e1 ncq e2 mt e3 y1 x3 x2 x1 fc e4 y2 x4 x0 :
    ciq_sampling model likelihood test_x
      [Ev (Func "torch.no_grad") [] (inr ng);
       Ev (Method "__enter__") [ng] (inr e0);
       Ev (Method "__call__") [model; test_x] (inr p);
       Ev (Method "__call__") [likelihood; p] (inr pred);
       Ev (Func "gpytorch.settings.ciq_samples") [VBool true] (inr ciq);
       Ev (Method "__enter__") [ciq] (inr e1);
       Ev (Func "gpytorch.settings.num_contour_quadrature") [VNum (Int 10)] (inr ncq);
       Ev (Method "__enter__") [ncq] (inr e2);
       Ev (Func "gpytorch.settings.minres_tolerance") [VNum (F 1 (-4))] (inr mt);
       Ev (Method "__enter__") [mt] (inr e3);
       Ev (Method "rsample") [pred] (inr y1);
       Ev (Method "__exit__") [mt; VNone] (inr x3);
       Ev (Method "__exit__") [ncq; VNone] (inr x2);
       Ev (Method "__exit__") [ciq; VNone] (inr x1);
       Ev (Func "gpytorch.settings.fast_computations")
          [VKw "covar_root_decomposition" (VBool false)] (inr fc);
       Ev (Method "__enter__") [fc] (inr e4);
       Ev (Method "rsample") [pred] (inr y2);
       Ev (Method "__exit__") [fc; VNone] (inr x4);
       Ev (Method "__exit__") [ng; VNone] (inr x0)].

(** ** Prediction and plot in the spectral-mixture notebook *)

(** Cell 9: the model and the likelihood are put in evaluation mode; under
    no_grad and fast_pred_var one predictive distribution is computed on 51
    points of [0, 5]; the training data is plotted as black stars, the mean
    of that distribution as a blue line over the test points, and the band
    between the lower and the upper bound of its confidence region, in this
    order, is shaded. *)
Inductive sm_prediction_plot (train_x train_y likelihood model : val)
  : list event -> Prop :=
| sm_prediction_plot_intro test_x r1 r2 ng e1 fp e2 p pred sp f ax cr lower upper
                           nx ny r3 tx mean nmean r4 tx' nl nu r5 r6 r7 x2 x1 :
    sm_prediction_plot train_x train_y likelihood model
      [Ev (Func "torch.linspace") [VNum (Int 0); VNum (Int 5); VNum (Int 51)]
          (inr test_x);
       Ev (Method "eval") [model] (inr r1);
       Ev (Method "eval") [likelihood] (inr r2);
       Ev (Func "torch.no_grad") [] (inr ng);
       Ev (Method "__enter__") [ng] (inr e1);
       Ev (Func "gpytorch.settings.fast_pred_var") [] (inr fp);
       Ev (Method "__enter__") [fp] (inr e2);
       Ev (Method "__call__") [model; test_x] (inr p);
       Ev (Method "__call__") [likelihood; p] (inr pred);
       Ev (Func "matplotlib.pyplot.subplots")
          [VNum (Int 1); VNum (Int 1); VKw "figsize" (VTuple [VNum (Int 4); VNum (Int 3)])]
          (inr sp);
       Ev (Method "__getitem__") [sp; VNum (Int 0)] (inr f);
       Ev (Method "__getitem__") [sp; VNum (Int 1)] (inr ax);
       Ev (Method "confidence_region") [pred] (inr cr);
       Ev (Method "__getitem__") [cr; VNum (Int 0)] (inr lower);
       Ev (Method "__getitem__") [cr; VNum (Int 1)] (inr upper);
       Ev (Method "numpy") [train_x] (inr nx);
       Ev (Method "numpy") [train_y] (inr ny);
       Ev (Method "plot") [ax; nx; ny; VStr "k*"] (inr r3);
       Ev (Method "numpy") [test_x] (inr tx);
       Ev GetAttr [pred; VStr "mean"] (inr mean);
       Ev (Method "numpy") [mean] (inr nmean);
       Ev (Method "plot") [ax; tx; nmean; VStr "b"] (inr r4);
       Ev (Method "numpy") [test_x] (inr tx');
       Ev (Method "numpy") [lower] (inr nl);
       Ev (Method "numpy") [upper] (inr nu);
       Ev (Method "fill_between") [ax; tx'; nl; nu; VKw "alpha" (VNum (F 5 (-1)))]
          (inr r5);
       Ev (Method "set_ylim") [ax; VList [VNum (Int (-3)); VNum (Int 3)]] (inr r6);
       Ev (Method "legend")
          [ax; VList [VStr "Observed Data"; VStr "Mean"; VStr "Confidence"]] (inr r7);
       Ev (Method "__exit__") [fp; VNone] (inr x2);
       Ev (Method "__exit__") [ng; VNone] (inr x1)].

(** ** The KeOps flag *)

(** The test points of the CIQ notebook: [n] points of [0, 1]. *)
Definition is_test_set (n : Z) (f : fn) (args : list val) : Prop :=
  f = Func "torch.linspace" /\ args = [VNum (Int 0); VNum (Int 1); VNum (Int n)].

(** ** Cells of the save/load notebook on the framework model *)

Module Cells.

(** Cells 1 to 3, then the model's dictionary; returns it with the model. *)
Definition built : py (val * val) :=
  SaveLoad.cell_1;;
  xy <- SaveLoad.cell_2;;
  lm <- SaveLoad.cell_3 xy.1 xy.2;;
  sd <- meth lm.2 "state_dict" [];;
  Ret (lm.2, sd).

(** Cells 1 to 4, then the model's dictionary. *)
Definition tuned : py (val * val) :=
  SaveLoad.cell_1;;
  xy <- SaveLoad.cell_2;;
  lm <- SaveLoad.cell_3 xy.1 xy.2;;
  SaveLoad.cell_4 lm.2;;
  sd <- meth lm.2 "state_dict" [];;
  Ret (lm.2, sd).

Definition tuned_keys : list string :=
  ["covar_module.raw_outputscale"; "covar_module.base_kernel.raw_lengthscale"].

End Cells.

(** ** Facts about execution *)

Section Runs.

Context {S : Type} (h : handler S).

#[local] Abbreviation ok_run := (ok_run h).
#[local] Abbreviation exits_quiet := (exits_quiet h).
#[local] Abbreviation propagates := (propagates h).

Lemma run_bind {A B : Type} (p : py A) (g : A -> py B) (s : S) :
  run h (bind p g) s =
  let '(tr1, s1, o1) := run h p s in
  match o1 with
  | inl e => (tr1, s1, inl e)
  | inr a => let '(tr2, s2, o2) := run h (g a) s1 in (tr1 ++ tr2, s2, o2)
  end.
Proof.
  revert B g s. induction p as [R r | R f args k IH | R m body _ k IH]; intros B g s.
  - simpl. destruct (run h (g r) s) as [[tr s'] o]. reflexivity.
  - simpl. destruct (h f args s) as [s1 [e | v]]; [reflexivity|].
    rewrite IH. destruct (run h (k v) s1) as [[tr1 s2] [e | a]]; [reflexivity|].
    destruct (run h (g a) s2) as [[tr2 s3] o]. reflexivity.
  - simpl. destruct (h (Method "__enter__") [m] s) as [s1 [e | v]]; [reflexivity|].
    destruct (run h body s1) as [[trb s2] ob].
    destruct (h (Method "__exit__") _ s2) as [s3 [e' | v']]; [reflexivity|].
    destruct ob as [e | []].
    + destruct (truthy v'); [|reflexivity].
      rewrite IH. destruct (run h k s3) as [[tr1 s4] [e1 | a]]; [reflexivity|].
      destruct (run h (g a) s4) as [[tr2 s5] o]. simpl. rewrite <- app_assoc. reflexivity.
    + rewrite IH. destruct (run h k s3) as [[tr1 s4] [e1 | a]]; [reflexivity|].
      destruct (run h (g a) s4) as [[tr2 s5] o]. simpl. rewrite <- app_assoc. reflexivity.
Qed.

Lemma ok_ret {R : Type} (r r' : R) s tr s' :
  ok_run (Ret r) s tr s' r' -> tr = [] /\ s' = s /\ r' = r.
Proof. intros [H _]. simpl in H. by inversion H. Qed.

Lemma ok_call {R : Type} f args (k : val -> py R) s tr s' r :
  ok_run (Call f args k) s tr s' r ->
  exists s1 v tr', h f args s = (s1, inr v) /\ tr = Ev f args (inr v) :: tr' /\
                   ok_run (k v) s1 tr' s' r.
Proof.
  intros [H Hok]. simpl in H.
  destruct (h f args s) as [s1 [e | v]]; [inversion H|].
  destruct (run h (k v) s1) as [[tr1 s2] o] eqn:E. inversion H; subst.
  exists s1, v, tr1. split; [done|]. split; [done|].
  split; [done|]. by inversion Hok.
Qed.

Lemma ok_bind {A B : Type} (p : py A) (g : A -> py B) s tr s' r :
  ok_run (bind p g) s tr s' r ->
  exists tr1 s1 a tr2, ok_run p s tr1 s1 a /\ ok_run (g a) s1 tr2 s' r /\ tr = tr1 ++ tr2.
Proof.
  intros [H Hok]. rewrite run_bind in H.
  destruct (run h p s) as [[tr1 s1] [e | a]] eqn:E1; [inversion H|].
  destruct (run h (g a) s1) as [[tr2 s2] o] eqn:E2. inversion H; subst.
  apply Forall_app in Hok as [H1 H2].
  exists tr1, s1, a, tr2. by repeat split.
Qed.

Lemma raised_has_failure {R : Type} (p : py R) s tr s' e :
  run h p s = (tr, s', inl e) -> Exists (fun ev => succeeded ev = false) tr.
Proof.
  revert s tr s' e.
  induction p as [R r | R f args k IH | R m body IHb k IHk]; intros s tr s' e H;
    simpl in H.
  - inversion H.
  - destruct (h f args s) as [s1 [e1 | v]].
    + inversion H; subst. by apply Exists_cons_hd.
    + destruct (run h (k v) s1) as [[tr1 s2] o] eqn:E. inversion H; subst.
      apply Exists_cons_tl. by eapply IH.
  - destruct (h (Method "__enter__") [m] s) as [s1 [e1 | v1]].
    { inversion H; subst. by apply Exists_cons_hd. }
    destruct (run h body s1) as [[trb s2] ob] eqn:Eb.
    destruct (h (Method "__exit__") _ s2) as [s3 [e3 | v3]].
    { inversion H; subst. apply Exists_cons_tl, Exists_app. right.
      by apply Exists_cons_hd. }
    destruct ob as [eb | []].
    + assert (Hb : Exists (fun ev => succeeded ev = false) trb) by by eapply IHb.
      destruct (truthy v3).
      * destruct (run h k s3) as [[trk s4] o]. inversion H; subst.
        apply Exists_cons_tl, Exists_app. by left.
      * inversion H; subst. apply Exists_cons_tl, Exists_app. by left.
    + destruct (run h k s3) as [[trk s4] o] eqn:Ek. inversion H; subst.
      apply Exists_cons_tl, Exists_app. right. apply Exists_cons_tl. by eapply IHk.
Qed.

Lemma no_failure (tr : list event) :
  Forall (fun ev => succeeded ev = true) tr ->
  Exists (fun ev => succeeded ev = false) tr -> False.
Proof.
  intros Hall Hex. apply Exists_exists in Hex as (ev & Hin & Hf).
  rewrite Forall_forall in Hall. specialize (Hall ev Hin). congruence.
Qed.

Lemma ok_with {R : Type} m body (k : py R) s tr s' r :
  ok_run (With m body k) s tr s' r ->
  exists s1 v1 trb s2 s3 v3 trk,
    h (Method "__enter__") [m] s = (s1, inr v1) /\
    ok_run body s1 trb s2 tt /\
    h (Method "__exit__") [m; VNone] s2 = (s3, inr v3) /\
    ok_run k s3 trk s' r /\
    tr = Ev (Method "__enter__") [m] (inr v1) :: trb ++
         Ev (Method "__exit__") [m; VNone] (inr v3) :: trk.
Proof.
  intros [H Hok]. simpl in H.
  destruct (h (Method "__enter__") [m] s) as [s1 [e | v1]] eqn:E1; [inversion H|].
  destruct (run h body s1) as [[trb s2] ob] eqn:Eb.
  destruct ob as [e | []].
  - exfalso. apply raised_has_failure in Eb.
    destruct (h (Method "__exit__") _ s2) as [s3 [e' | v3]].
    + inversion H.
    + destruct (truthy v3).
      * destruct (run h k s3) as [[trk s4] o]. inversion H; subst.
        inversion Hok as [|? ? _ Hok']; subst.
        apply Forall_app in Hok' as [Hb _]. by eapply no_failure.
      * inversion H.
  - destruct (h (Method "__exit__") [m; VNone] s2) as [s3 [e' | v3]] eqn:E3.
    + inversion H.
    + destruct (run h k s3) as [[trk s4] o] eqn:Ek. inversion H; subst.
      inversion Hok as [|? ? _ Hok']; subst.
      apply Forall_app in Hok' as [Hb Hk]. inversion Hk; subst.
      exists s1, v1, trb, s2, s3, v3, trk. by repeat split.
Qed.

Lemma ok_for (body : nat -> py unit) (P : list event -> Prop) :
  (forall i s tr s', ok_run (body i) s tr s' tt -> P tr) ->
  forall n start s tr s',
    ok_run (for_range_from start n body) s tr s' tt ->
    exists chunks, tr = concat chunks /\ length chunks = n /\ Forall P chunks.
Proof.
  intros HP. induction n as [|n IH]; intros start s tr s' H.
  - apply ok_ret in H as (-> & _ & _). by exists [].
  - simpl in H. apply ok_bind in H as (tr1 & s1 & [] & tr2 & H1 & H2 & ->).
    apply IH in H2 as (chunks & -> & <- & Hall).
    exists (tr1 :: chunks). split; [done|]. split; [done|].
    constructor; [by eapply HP|done].
Qed.

Lemma run_propagates {R : Type} (p : py R) :
  exits_quiet \/ with_free p -> propagates p.
Proof.
  unfold propagates, result_of, trace_of.
  induction p as [R r | R f args k IH | R m body IHb k IHk]; intros Hq s; simpl.
  - constructor.
  - destruct (h f args s) as [s1 [e | v]] eqn:E; simpl.
    + exists [], (Ev f args (inl e)), []. by repeat split.
    + assert (Hk : exits_quiet \/ with_free (k v)).
      { destruct Hq as [Hq | Hq]; [by left|right; apply Hq]. }
      specialize (IH v Hk s1).
      destruct (run h (k v) s1) as [[tr s2] [e | r]]; simpl in *.
      * destruct IH as (before & ev & after & -> & Hb & He & Ha).
        exists (Ev f args (inr v) :: before), ev, after. repeat split; try done.
        by constructor.
      * by constructor.
  - destruct Hq as [Hq | []].
    destruct (h (Method "__enter__") [m] s) as [s1 [e | v1]] eqn:E1; simpl.
    { exists [], (Ev (Method "__enter__") [m] (inl e)), []. by repeat split. }
    specialize (IHb (or_introl Hq) s1).
    destruct (run h body s1) as [[trb s2] ob]; simpl in *.
    destruct ob as [eb | []].
    + destruct (Hq [m; VExc eb] s2) as (s3 & v3 & -> & ->). simpl.
      destruct IHb as (before & ev & after & -> & Hb & He & Ha).
      exists (Ev (Method "__enter__") [m] (inr v1) :: before), ev,
             (after ++ [Ev (Method "__exit__") [m; VExc eb] (inr v3)]).
      split; [by rewrite <- app_assoc|]. split; [by constructor|]. split; [done|].
      apply Forall_app. split; [done|]. by repeat constructor.
    + destruct (Hq [m; VNone] s2) as (s3 & v3 & -> & _).
      specialize (IHk (or_introl Hq) s3).
      destruct (run h k s3) as [[trk s4] [e | r]]; simpl in *.
      * destruct IHk as (before & ev & after & -> & Hb & He & Ha).
        exists (Ev (Method "__enter__") [m] (inr v1) :: trb ++
                Ev (Method "__exit__") [m; VNone] (inr v3) :: before), ev, after.
        split; [simpl; by rewrite <- app_assoc|]. split; [|done].
        constructor; [done|]. apply Forall_app. split; [done|]. by constructor.
      * constructor; [done|]. apply Forall_app. split; [done|]. by constructor.
Qed.

Lemma only_bind P {A B : Type} (p : py A) (g : A -> py B) :
  only P p -> (forall a, only P (g a)) -> only P (bind p g).
Proof.
  intros Hp Hg. induction Hp; simpl; [done| |]; constructor; auto.
Qed.

Lemma only_for P (body : nat -> py unit) n start :
  (forall i, only P (body i)) -> only P (for_range_from start n body).
Proof.
  intros Hb. revert start. induction n; intros start; simpl; [constructor|].
  apply only_bind; auto.
Qed.

Lemma only_trace P {R : Type} (p : py R) :
  only P p -> forall s, Forall (fun ev => P (ev_fn ev) (ev_args ev)) (trace_of h p s).
Proof.
  unfold trace_of. induction 1 as [R r | R f args k Hf _ IH | R m body k He Hx _ IHb _ IHk];
    intros s; simpl.
  - constructor.
  - destruct (h f args s) as [s1 [e | v]]; simpl; [by repeat constructor|].
    specialize (IH v s1). destruct (run h (k v) s1) as [[tr s2] o]. by constructor.
  - destruct (h (Method "__enter__") [m] s) as [s1 [e | v1]]; simpl;
      [by repeat constructor|].
    specialize (IHb s1). destruct (run h body s1) as [[trb s2] ob]. simpl in IHb.
    set (exc := match ob with inl e => VExc e | inr _ => VNone end).
    specialize (Hx exc).
    destruct (h (Method "__exit__") [m; exc] s2) as [s3 [e3 | v3]]; simpl.
    { constructor; [done|]. apply Forall_app. split; [done|]. by repeat constructor. }
    specialize (IHk s3). destruct (run h k s3) as [[trk s4] o]. simpl in IHk.
    destruct ob as [eb | []]; [destruct (truthy v3)|]; simpl;
      (constructor; [done|]); apply Forall_app; (split; [done|]);
      by repeat constructor.
Qed.

(** *** Frame: what the calls of a program leave alone, the program does *)

Lemma frame {X : Type} (obs : S -> X) (P : fn -> list val -> Prop) {R : Type} (p : py R) :
  only P p ->
  (forall f args s, P f args -> obs (h f args s).1 = obs s) ->
  forall s, obs (run h p s).1.2 = obs s.
Proof.
  intros Hp Hobs.
  induction Hp as [R r | R f args k Hf _ IH | R m body k He Hx _ IHb _ IHk];
    intros s; simpl.
  - done.
  - specialize (Hobs f args s Hf). destruct (h f args s) as [s1 [e | v]]; simpl in *;
      [done|].
    specialize (IH v s1). destruct (run h (k v) s1) as [[tr s2] o]. simpl in *. congruence.
  - pose proof (Hobs (Method "__enter__") [m] s He) as H1.
    destruct (h (Method "__enter__") [m] s) as [s1 [e | v1]]; simpl in *; [done|].
    specialize (IHb s1). destruct (run h body s1) as [[trb s2] ob]. simpl in IHb.
    set (exc := match ob with inl e => VExc e | inr _ => VNone end).
    pose proof (Hobs (Method "__exit__") [m; exc] s2 (Hx exc)) as H3.
    destruct (h (Method "__exit__") [m; exc] s2) as [s3 [e3 | v3]]; simpl in *;
      [congruence|].
    specialize (IHk s3). destruct (run h k s3) as [[trk s4] o]. simpl in IHk.
    destruct ob as [eb | []]; [destruct (truthy v3)|]; simpl; congruence.
Qed.

Lemma must_bind_l P {A B : Type} (p : py A) (g : A -> py B) :
  must P p -> must P (bind p g).
Proof.
  induction 1; simpl;
    [by apply must_here | apply must_later; auto | by apply must_body
     | by apply must_after].
Qed.

Lemma must_bind_r P {A B : Type} (p : py A) (g : A -> py B) :
  (forall a, must P (g a)) -> must P (bind p g).
Proof.
  intros Hg. induction p as [R r | R f args k IH | R m body _ k IH]; simpl.
  - apply Hg.
  - apply must_later. intros v. by apply IH.
  - apply must_after. by apply IH.
Qed.

Lemma must_for P (body : nat -> py unit) n start :
  must P (body start) -> must P (for_range_from start (Datatypes.S n) body).
Proof. intros H. simpl. by apply must_bind_l. Qed.

Lemma must_ok P {R : Type} (p : py R) :
  must P p ->
  forall s tr s' r, ok_run p s tr s' r ->
    Exists (fun ev => P (ev_fn ev) (ev_args ev)) tr.
Proof.
  induction 1 as [R f args k HP | R f args k _ IH | R m body k _ IH | R m body k _ IH];
    intros s tr s' r Hok.
  - apply ok_call in Hok as (s1 & v & tr' & _ & -> & _). by apply Exists_cons_hd.
  - apply ok_call in Hok as (s1 & v & tr' & _ & -> & Hk).
    apply Exists_cons_tl. by eapply IH.
  - apply ok_with in Hok as (s1 & v1 & trb & s2 & s3 & v3 & trk & _ & Hb & _ & _ & ->).
    apply Exists_cons_tl, Exists_app. left. by eapply IH.
  - apply ok_with in Hok as (s1 & v1 & trb & s2 & s3 & v3 & trk & _ & _ & _ & Hk & ->).
    apply Exists_cons_tl, Exists_app. right. apply Exists_cons_tl. by eapply IH.
Qed.

End Runs.

(** ** The save/load notebook: its dictionary calls, whatever the framework *)

Ltac ok_calls H :=
  repeat (apply ok_call in H as (? & ? & ? & ? & -> & H)).

Lemma saveload_with_free : with_free SaveLoad.notebook.
Proof. repeat (simpl; intros ?). exact I. Qed.

Lemma saveload_dict_calls_ok {S : Type} (h : handler S) s tr s' d :
  ok_run h SaveLoad.notebook s tr s' d -> saveload_dict_calls (dict_calls tr).
Proof.
  intros H. unfold SaveLoad.notebook in H. simpl in H.
  ok_calls H. apply ok_ret in H as (-> & _ & _).
  vm_compute. constructor.
Qed.

Lemma saveload_unaltered tr : saveload_dict_calls tr -> unaltered_from None tr.
Proof.
  intros []. simpl.
  repeat split; try discriminate; intros _; do 2 eexists; by repeat split.
Qed.

(** ** The save/load notebook on the framework model: what it displays *)

(** On the framework model the notebook displays the dictionaries recorded
    in it, whatever the numbers drawn, and leaves the two checkpoints. *)
Lemma notebook_run (nm : Torch.numerics) (g : nat) :
  result_of (Torch.torch nm) SaveLoad.notebook (Recorded.fresh g) =
    inr (Recorded.display nm g) /\
  Torch.files (run (Torch.torch nm) SaveLoad.notebook (Recorded.fresh g)).1.2 =
    Recorded.checkpoints nm g.
Proof. vm_compute. split; reflexivity. Qed.

(** The recorded run prints what the notebook file shows. *)
Example recorded_out_13 :
  SaveLoad.out_13 (Recorded.display Torch.recorded_numerics 0) =
  VDict (Recorded.gp_entries (F 0 0) (F 0 0) ++
         Recorded.nn_entries [F (-2407) (-4); F 6045 (-4)]
                             [F (-2979) (-4); F (-7298) (-4)]
                             [F (-4799) (-4); F (-1244) (-4); F (-4018) (-4); F (-1852) (-4)]
                             [F (-2166) (-4); F 2943 (-4)]).
Proof. reflexivity. Qed.

(** C1. For every numbers the framework computes or draws, the notebook run
    on a fresh kernel saves each model's state dictionary with one
    torch.save, reads it back with torch.load and loads it with
    load_state_dict into a newly built model of the same class on the same
    arguments; the load reports that all keys matched, and the new model's
    state dictionary is the saved one, key for key and value for value. *)
Theorem roundtrip_identity (nm : Torch.numerics) (g : nat) :
  exists tr w d sd1 sd2 m1 m1' m2 m2',
    run (Torch.torch nm) SaveLoad.notebook (Recorded.fresh g) = (tr, w, inr d) /\
    Recorded.receivers "state_dict" tr =
      [VObj m1; VObj m1; VObj m1'; VObj m2; VObj m2; VObj m2'] /\
    Recorded.receivers "load_state_dict" tr = [VObj m1'; VObj m2'] /\
    m1 <> m1' /\ m2 <> m2' /\
    count_calls (Func "torch.save") tr = 2 /\
    count_calls (Func "torch.load") tr = 2 /\
    SaveLoad.out_5 d = VDict sd1 /\
    Torch.files w !! "model_state.pth" = Some (VDict sd1) /\
    SaveLoad.out_7 d = VKeys [] [] /\
    SaveLoad.out_8 d = VDict sd1 /\
    SaveLoad.out_11 d = VDict sd2 /\
    Torch.files w !! "my_gp_with_nn_model.pth" = Some (VDict sd2) /\
    SaveLoad.out_12 d = VKeys [] [] /\
    SaveLoad.out_13 d = VDict sd2.
Proof.
  do 9 eexists. split; [vm_compute; reflexivity|].
  split; [vm_compute; reflexivity|]. split; [vm_compute; reflexivity|].
  split; [discriminate|]. split; [discriminate|].
  repeat split; vm_compute; reflexivity.
Qed.




(** ** Tests on traces *)

Lemma any_call_true test tr :
  Exists (fun ev => test (ev_fn ev) (ev_args ev) = true) tr -> any_call test tr = true.
Proof.
  intros H. apply Exists_exists in H as (ev & Hin & Ht).
  apply existsb_exists. exists ev. split; [by apply list_elem_of_In|done].
Qed.

Lemma any_call_false test test' tr :
  Forall (fun ev => test' (ev_fn ev) (ev_args ev) = false) tr ->
  (forall f args, test f args = true -> test' f args = true) ->
  any_call test tr = false.
Proof.
  intros H Himp. induction H as [|ev tr Hev _ IH]; [done|]. simpl. rewrite IH.
  destruct (test (ev_fn ev) (ev_args ev)) eqn:E; [|done].
  apply Himp in E. congruence.
Qed.

Lemma dict_calls_none tr :
  Forall (fun ev => is_dict_fn (ev_fn ev) = false) tr -> dict_calls tr = [].
Proof.
  induction 1 as [|ev tr Hev _ IH]; [done|]. unfold dict_calls, is_dict_call in *.
  simpl. by rewrite Hev.
Qed.

Lemma count_calls_dict f tr :
  is_dict_fn f = true -> count_calls f tr = count_calls f (dict_calls tr).
Proof.
  intros Hf. unfold count_calls, dict_calls. induction tr as [|ev tr IH]; [done|].
  simpl. unfold is_dict_call at 1.
  destruct (bool_decide (ev_fn ev = f)) eqn:E.
  - apply bool_decide_eq_true in E. rewrite E, Hf. simpl.
    rewrite bool_decide_eq_true_2 by done. simpl. by rewrite IH.
  - destruct (is_dict_fn (ev_fn ev)); simpl; [rewrite E|]; done.
Qed.

(** ** What the training notebooks never call *)

Ltac only_step :=
  first
    [ apply only_ret
    | apply only_call; [reflexivity | intros ?]
    | apply only_with; [reflexivity | intros ?; reflexivity | | ]
    | apply only_for; intros ?
    | apply only_bind; [| intros ?]
    | match goal with
      | |- context [if truthy ?v then _ else _] => destruct (truthy v)
      end ].
Ltac only_auto := cbn -[for_range_from]; repeat (only_step; cbn -[for_range_from]).

Lemma sm_no_dict_calls environ :
  only (fun f _ => is_dict_fn f = false) (SpectralMixture.notebook environ).
Proof.
  unfold SpectralMixture.notebook, SpectralMixture.cell_7,
    SpectralMixture.training_loop, for_range.
  only_auto.
Qed.

Lemma ciq_no_dict_no_plot HAVE_KEOPS environ :
  only (fun f args => is_dict_fn f || is_plot f args = false)
       (CIQ.notebook HAVE_KEOPS environ).
Proof.
  unfold CIQ.notebook, CIQ.cell_6, CIQ.training_loop, for_range.
  destruct HAVE_KEOPS; only_auto.
Qed.

(** ** Runs in the counting world *)

Lemma quiet_saveload_ok :
  ok_run Toy.quiet (program SaveLoadNb CIQ.cell_3 ∅) Toy.start
    (trace_of Toy.quiet (program SaveLoadNb CIQ.cell_3 ∅) Toy.start)
    Toy.start tt.
Proof.
  split; [vm_compute; reflexivity|]. apply (bool_decide_unpack _). vm_compute. exact I.
Qed.

Lemma quiet_sm_ok :
  ok_run Toy.quiet (program SpectralMixtureNb CIQ.cell_3 ∅) Toy.start
    (trace_of Toy.quiet (program SpectralMixtureNb CIQ.cell_3 ∅) Toy.start)
    (Toy.Counters 100 0) tt.
Proof.
  split; [vm_compute; reflexivity|]. apply (bool_decide_unpack _). vm_compute. exact I.
Qed.




(** ** What each notebook is sure to do *)

Ltac must_step :=
  first
    [ apply must_here; reflexivity
    | apply must_later; intros ?
    | apply must_body
    | match goal with
      | |- context [if truthy ?v then _ else _] => destruct (truthy v)
      end ].
Ltac must_auto := cbn -[for_range_from]; repeat (must_step; cbn -[for_range_from]).

(** To the training loop, then into its first pass. *)
Ltac must_in_loop :=
  must_auto; apply must_bind_l; apply must_for; must_auto.
(** Past the training loop. *)
Ltac must_past_loop :=
  must_auto; apply must_bind_r; intros ?; must_auto.

Lemma training_iter_pos full environ :
  exists n, training_iter (S full) environ = S n.
Proof. unfold training_iter. destruct (in_environ "CI" environ); eauto. Qed.

Lemma sm_must_define environ :
  must (fun f args => is_model_class f args = true) (SpectralMixture.notebook environ).
Proof. unfold SpectralMixture.notebook. must_auto. Qed.

Lemma sm_must_train environ (f : fn) :
  f = Method "backward" \/ f = Method "step" ->
  must (fun f' args => calls_to f f' args = true) (SpectralMixture.notebook environ).
Proof.
  intros Hf. unfold SpectralMixture.notebook, SpectralMixture.cell_7,
    SpectralMixture.training_loop, for_range.
  destruct (training_iter_pos 99 environ) as [n ->].
  destruct Hf as [-> | ->]; must_in_loop.
Qed.

Lemma sm_must_plot environ :
  must (fun f args => is_plot f args = true) (SpectralMixture.notebook environ).
Proof.
  unfold SpectralMixture.notebook, SpectralMixture.cell_7,
    SpectralMixture.training_loop, for_range, with_.
  must_past_loop.
Qed.

Lemma ciq_must_define HAVE_KEOPS environ :
  must (fun f args => is_model_class f args = true) (CIQ.notebook HAVE_KEOPS environ).
Proof. unfold CIQ.notebook. must_auto. Qed.

Lemma ciq_must_train HAVE_KEOPS environ (f : fn) :
  f = Method "backward" \/ f = Method "step" ->
  must (fun f' args => calls_to f f' args = true) (CIQ.notebook HAVE_KEOPS environ).
Proof.
  intros Hf. unfold CIQ.notebook, CIQ.cell_6, CIQ.training_loop, for_range.
  destruct (training_iter_pos 49 environ) as [n ->].
  destruct HAVE_KEOPS; destruct Hf as [-> | ->]; must_in_loop.
Qed.

Lemma saveload_performed {S : Type} (h : handler S) s tr s' d :
  ok_run h SaveLoad.notebook s tr s' d -> performed tr = expected SaveLoadNb.
Proof.
  intros H. unfold SaveLoad.notebook in H. simpl in H.
  ok_calls H. apply ok_ret in H as (-> & _ & _).
  vm_compute. reflexivity.
Qed.

Lemma trace_of_ok {S R : Type} (h : handler S) (p : py R) s tr s' r :
  ok_run h p s tr s' r -> tr = trace_of h p s.
Proof. intros [H _]. unfold trace_of. by rewrite H. Qed.




(** ** Exceptions *)



(** ** Training loops *)

Ltac reporting_tac :=
  repeat constructor; apply (bool_decide_unpack _); reflexivity.

Lemma sm_step_iteration {S : Type} (h : handler S) n opt model mll tx ty i s tr s' :
  ok_run h (SpectralMixture.training_step n opt model mll tx ty i) s tr s' tt ->
  iteration opt model mll tx ty tr.
Proof.
  intros H. unfold SpectralMixture.training_step, forward_backward in H.
  cbn -[Z.add Z.of_nat] in H.
  ok_calls H. apply ok_ret in H as (-> & _ & _).
  eapply (iteration_intro _ _ _ _ _ _ _ _ _ _ [_; _; _]). reporting_tac.
Qed.

Lemma ciq_step_iteration {S : Type} (h : handler S) n opt model mll tx ty i s tr s' :
  ok_run h (CIQ.training_step n opt model mll tx ty i) s tr s' tt ->
  iteration opt model mll tx ty tr.
Proof.
  intros H. unfold CIQ.training_step, forward_backward in H.
  cbn -[Z.add Z.of_nat] in H.
  ok_calls H. apply ok_ret in H as (-> & _ & _).
  eapply (iteration_intro _ _ _ _ _ _ _ _ _ _ [_; _; _; _; _; _; _; _; _; _]).
  reporting_tac.
Qed.

Lemma setup_ok {S : Type} (h : handler S) model likelihood s tr s' optimizer mll :
  ok_run h (training_setup model likelihood) s tr s' (optimizer, mll) ->
  adam_setup model likelihood optimizer mll tr.
Proof.
  intros H. unfold training_setup in H. simpl in H.
  ok_calls H. apply ok_ret in H as (-> & _ & E). injection E as -> ->.
  constructor.
Qed.

(** C5. In a run of a training cell where no call raises, the cell sets up
    an Adam optimizer over the model's parameters and the exact marginal
    log-likelihood, and then makes exactly training_iter passes, 2 when CI
    is in the environment and otherwise 100 (spectral mixture) or 50 (CIQ);
    each pass, in this order, zeroes the gradients, evaluates the model on
    train_x, takes the marginal log-likelihood of that output against
    train_y, negates it into the loss, backpropagates from the loss and,
    after reporting, takes one optimizer step. *)
Theorem training_iterations {S : Type} (h : handler S) (t : trainer)
    (environ : environ_t) (train_x train_y likelihood model : val)
    (s s' : S) (tr : list event)
    (Hok : ok_run h (training_cell t environ train_x train_y likelihood model)
             s tr s' tt) :
  exists setup optimizer mll loop,
    tr = setup ++ loop /\
    adam_setup model likelihood optimizer mll setup /\
    iterations optimizer model mll train_x train_y
      (if in_environ "CI" environ then 2 else full_iterations t) loop.
Proof.
  destruct t.
  - change (ok_run h (SpectralMixture.cell_7 environ train_x train_y likelihood model)
              s tr s' tt) in Hok.
    unfold SpectralMixture.cell_7 in Hok.
    apply ok_bind in Hok as (tr1 & s1 & [opt mll] & tr2 & Hs & Hl & ->).
    apply setup_ok in Hs.
    unfold SpectralMixture.training_loop, for_range in Hl.
    eapply ok_for in Hl; [|intros; eapply sm_step_iteration; eassumption].
    exists tr1, opt, mll, tr2. by repeat split.
  - change (ok_run h (CIQ.cell_6 environ
                        (CIQ.Names train_x train_y model likelihood)) s tr s' tt) in Hok.
    unfold CIQ.cell_6 in Hok. simpl CIQ.model in Hok. simpl CIQ.likelihood in Hok.
    simpl CIQ.train_x in Hok. simpl CIQ.train_y in Hok.
    apply ok_bind in Hok as (tr1 & s1 & [opt mll] & tr2 & Hs & Hl & ->).
    apply setup_ok in Hs.
    unfold CIQ.training_loop, for_range in Hl.
    eapply ok_for in Hl; [|intros; eapply ciq_step_iteration; eassumption].
    exists tr1, opt, mll, tr2. by repeat split.
Qed.

Lemma quiet_training_ok :
  ok_run Toy.quiet
    (training_cell CIQTrainer {[ "CI" := "true" ]} VNone VNone VNone VNone) Toy.start
    (trace_of Toy.quiet
       (training_cell CIQTrainer {[ "CI" := "true" ]} VNone VNone VNone VNone) Toy.start)
    (Toy.Counters 2 0) tt.
Proof.
  split; [vm_compute; reflexivity|]. apply (bool_decide_unpack _). vm_compute. exact I.
Qed.

Lemma training_iterations_witness :
  ok_run Toy.quiet
    (training_cell CIQTrainer {[ "CI" := "true" ]} VNone VNone VNone VNone) Toy.start
    (trace_of Toy.quiet
       (training_cell CIQTrainer {[ "CI" := "true" ]} VNone VNone VNone VNone) Toy.start)
    (Toy.Counters 2 0) tt /\
  exists setup optimizer mll loop,
    trace_of Toy.quiet
      (training_cell CIQTrainer {[ "CI" := "true" ]} VNone VNone VNone VNone) Toy.start
    = setup ++ loop /\
    adam_setup VNone VNone optimizer mll setup /\
    iterations optimizer VNone mll VNone VNone 2 loop.
Proof.
  split; [exact quiet_training_ok|].
  exact (training_iterations Toy.quiet CIQTrainer {[ "CI" := "true" ]}
           VNone VNone VNone VNone _ _ _ quiet_training_ok).
Defined.

Ltac loop_call_tac :=
  split;
  [ apply (bool_decide_unpack _); reflexivity
  | let Hf := fresh "Hf" in
    intros Hf; first [discriminate Hf | by left | right; by eexists] ].

Lemma loop_only (t : trainer) n optimizer model mll train_x train_y :
  only (loop_call model mll train_x train_y)
       (training_loop_of t n optimizer model mll train_x train_y).
Proof.
  destruct t; simpl;
    unfold SpectralMixture.training_loop, CIQ.training_loop, for_range;
    apply only_for; intros i;
    unfold SpectralMixture.training_step, CIQ.training_step, forward_backward;
    cbn -[Z.add Z.of_nat];
    repeat first [apply only_ret | apply only_call; [loop_call_tac | intros ?]].
Qed.



(** ** Environment and flag *)




(** ** Names and handling of the dictionaries *)



Lemma quiet_notebook_ok :
  ok_run Toy.quiet SaveLoad.notebook Toy.start
    (trace_of Toy.quiet SaveLoad.notebook Toy.start) Toy.start
    (SaveLoad.Displayed VNone VNone VNone VNone VNone VNone).
Proof.
  split; [vm_compute; reflexivity|]. apply (bool_decide_unpack _). vm_compute. exact I.
Qed.


(** ** Further properties of the notebooks *)

(** ** Context managers are always left *)

Section Nesting.

Context {S : Type} (h : handler S).

Lemma nested_run {R : Type} (p : py R) :
  no_manual_ctx p ->
  forall s stack rest,
    well_nested stack rest -> well_nested stack (trace_of h p s ++ rest).
Proof.
  unfold trace_of.
  induction p as [R r | R f args k IH | R m body IHb k IHk];
    intros Hp s stack rest Hrest; simpl.
  - done.
  - destruct Hp as (H1 & H2 & Hk).
    destruct (h f args s) as [s1 [e | v]]; simpl.
    + by rewrite !bool_decide_eq_false_2 by done.
    + specialize (IH v (Hk v) s1 stack rest Hrest).
      destruct (run h (k v) s1) as [[tr s2] o]. simpl in *.
      by rewrite !bool_decide_eq_false_2 by done.
  - destruct Hp as [Hb Hk].
    destruct (h (Method "__enter__") [m] s) as [s1 [e | v1]]; simpl; [done|].
    pose proof (IHb Hb s1) as IHb'.
    destruct (run h body s1) as [[trb s2] ob]. simpl in IHb'.
    set (exc := match ob with inl e => VExc e | inr _ => VNone end).
    destruct (h (Method "__exit__") [m; exc] s2) as [s3 [e3 | v3]] eqn:E3; simpl.
    { rewrite <- app_assoc. apply IHb'. simpl. by split. }
    pose proof (IHk Hk s3 stack rest Hrest) as IHk'.
    destruct (run h k s3) as [[trk s4] o]. simpl in IHk'.
    destruct ob as [eb | []]; [destruct (truthy v3)|]; simpl;
      rewrite <- app_assoc; apply IHb'; simpl; by split.
Qed.

Lemma no_manual_ctx_bind {A B : Type} (p : py A) (g : A -> py B) :
  no_manual_ctx p -> (forall a, no_manual_ctx (g a)) -> no_manual_ctx (bind p g).
Proof.
  intros Hp Hg. induction p as [R r | R f args k IH | R m body _ k IH]; simpl in *.
  - apply Hg.
  - destruct Hp as (H1 & H2 & Hk). repeat split; auto.
  - destruct Hp as [Hb Hk]. split; auto.
Qed.

Lemma no_manual_ctx_for (body : nat -> py unit) n start :
  (forall i, no_manual_ctx (body i)) -> no_manual_ctx (for_range_from start n body).
Proof.
  intros Hb. revert start. induction n; intros start; simpl; [done|].
  apply no_manual_ctx_bind; auto.
Qed.

End Nesting.

Ltac ctx_step :=
  first
    [ exact I
    | apply no_manual_ctx_for; intros ?
    | apply no_manual_ctx_bind; [| intros ?]
    | match goal with
      | |- _ /\ _ => split
      | |- _ <> _ => discriminate
      | |- forall _, _ => intros ?
      | |- context [if truthy ?v then _ else _] => destruct (truthy v)
      end ].
Ltac ctx_auto := cbn -[for_range_from]; repeat (ctx_step; cbn -[for_range_from]).

Lemma notebooks_no_manual_ctx nb HAVE_KEOPS environ :
  no_manual_ctx (program nb HAVE_KEOPS environ).
Proof.
  destruct nb.
  - unfold program, SaveLoad.notebook. ctx_auto.
  - unfold program, SpectralMixture.notebook, SpectralMixture.cell_7,
      SpectralMixture.training_loop, for_range. ctx_auto.
  - unfold program, CIQ.notebook, CIQ.cell_6, CIQ.training_loop, for_range.
    destruct HAVE_KEOPS; ctx_auto.
Qed.


(** ** Training comes before evaluation *)

Lemma trace_bind {S A B : Type} (h : handler S) (p : py A) (g : A -> py B) s :
  trace_of h (bind p g) s =
  trace_of h p s ++
  match (run h p s).2 with
  | inl _ => []
  | inr a => trace_of h (g a) (run h p s).1.2
  end.
Proof.
  unfold trace_of. rewrite run_bind.
  destruct (run h p s) as [[tr1 s1] [e | a]]; simpl; [by rewrite app_nil_r|].
  by destruct (run h (g a) s1) as [[tr2 s2] o].
Qed.

Lemma phased_trace {S : Type} (h : handler S) A B {R : Type} (p : py R) :
  phased A B p ->
  forall s, exists t1 t2,
    trace_of h p s = t1 ++ t2 /\
    Forall (fun ev => A (ev_fn ev) (ev_args ev)) t1 /\
    Forall (fun ev => B (ev_fn ev) (ev_args ev)) t2.
Proof.
  induction 1 as [R p Hp | R f args k Hf _ IH | X R p g Hp _ IH]; intros s.
  - exists [], (trace_of h p s). split; [done|]. split; [constructor|].
    by apply only_trace.
  - unfold trace_of in *. simpl.
    destruct (h f args s) as [s1 [e | v]]; simpl.
    + exists [Ev f args (inl e)], []. split; [done|]. by repeat constructor.
    + destruct (IH v s1) as (t1 & t2 & E & H1 & H2).
      destruct (run h (k v) s1) as [[tr s2] o]. simpl in *. subst tr.
      exists (Ev f args (inr v) :: t1), t2. split; [done|]. split; [|done].
      by constructor.
  - rewrite trace_bind. pose proof (only_trace h _ _ Hp s) as H1.
    destruct (run h p s).2 as [e | a].
    + exists (trace_of h p s), []. by rewrite app_nil_r.
    + destruct (IH a (run h p s).1.2) as (t1 & t2 & -> & Ht1 & Ht2).
      exists (trace_of h p s ++ t1), t2. split; [by rewrite app_assoc|].
      split; [|done]. by apply Forall_app.
Qed.

Ltac phase_one :=
  cbn -[for_range_from];
  repeat (apply phased_call; [reflexivity | intros ?]; cbn -[for_range_from]);
  repeat match goal with
         | |- context [if truthy ?v then _ else _] =>
             destruct (truthy v); cbn -[for_range_from];
             repeat (apply phased_call; [reflexivity | intros ?]; cbn -[for_range_from])
         end.

Lemma training_then_prediction (t : trainer) HAVE_KEOPS environ :
  phased (not_in predicting_fns) (not_in optimizing_fns)
         (training_notebook t HAVE_KEOPS environ).
Proof.
  destruct t.
  - unfold training_notebook, SpectralMixture.notebook, SpectralMixture.cell_7,
      SpectralMixture.training_loop, for_range.
    phase_one. apply phased_seq.
    + apply only_for. intros i. only_auto.
    + intros _. apply phased_switch. unfold with_. only_auto.
  - unfold training_notebook, CIQ.notebook, CIQ.cell_6, CIQ.training_loop, for_range.
    destruct HAVE_KEOPS; phase_one; (apply phased_seq;
      [apply only_for; intros i; only_auto
      |intros _; apply phased_switch; unfold with_; only_auto]).
Qed.


(** ** Without CUDA *)

Section OnlyOn.

Context {S : Type} (h : handler S).

Lemma only_on_bind P {A B : Type} (p : py A) (g : A -> py B) :
  only_on h P p -> (forall a, only_on h P (g a)) -> only_on h P (bind p g).
Proof.
  intros Hp Hg. induction Hp; simpl; [done| |]; constructor; eauto.
Qed.

Lemma only_on_for P (body : nat -> py unit) n start :
  (forall i, only_on h P (body i)) -> only_on h P (for_range_from start n body).
Proof.
  intros Hb. revert start. induction n; intros start; simpl; [constructor|].
  apply only_on_bind; auto.
Qed.

Lemma only_on_trace P {R : Type} (p : py R) :
  only_on h P p ->
  forall s, Forall (fun ev => P (ev_fn ev) (ev_args ev)) (trace_of h p s).
Proof.
  unfold trace_of.
  induction 1 as [R r | R f args k Hf _ IH | R m body k He Hx _ IHb _ IHk];
    intros s; simpl.
  - constructor.
  - destruct (h f args s) as [s1 [e | v]] eqn:E; simpl; [by repeat constructor|].
    specialize (IH _ _ _ E s1). destruct (run h (k v) s1) as [[tr s2] o].
    by constructor.
  - destruct (h (Method "__enter__") [m] s) as [s1 [e | v1]]; simpl;
      [by repeat constructor|].
    specialize (IHb s1). destruct (run h body s1) as [[trb s2] ob]. simpl in IHb.
    set (exc := match ob with inl e => VExc e | inr _ => VNone end).
    specialize (Hx exc).
    destruct (h (Method "__exit__") [m; exc] s2) as [s3 [e3 | v3]]; simpl.
    { constructor; [done|]. apply Forall_app. split; [done|]. by repeat constructor. }
    specialize (IHk s3). destruct (run h k s3) as [[trk s4] o]. simpl in IHk.
    destruct ob as [eb | []]; [destruct (truthy v3)|]; simpl;
      (constructor; [done|]); apply Forall_app; (split; [done|]);
      by repeat constructor.
Qed.

End OnlyOn.

Ltac cpu_step Hcpu :=
  first
    [ apply only_on_ret
    | apply only_on_call;
      [reflexivity
      | let Hh := fresh "Hh" in
        intros ? ? ? Hh; try rewrite (Hcpu _ _ _ _ Hh); clear Hh]
    | apply only_on_with; [reflexivity | intros ?; reflexivity | | ]
    | apply only_on_for; intros ?
    | apply only_on_bind; [| intros ?] ].
Ltac cpu_auto Hcpu :=
  cbn -[for_range_from]; repeat (cpu_step Hcpu; cbn -[for_range_from]).

Lemma ciq_on_cpu {S : Type} (h : handler S) HAVE_KEOPS environ :
  no_cuda h ->
  only_on h (fun f _ => bool_decide (f = Method "cuda") = false)
    (CIQ.notebook HAVE_KEOPS environ).
Proof.
  intros Hcpu.
  unfold CIQ.notebook, CIQ.cell_5, CIQ.cell_6, CIQ.cell_7, CIQ.training_loop,
    for_range, with_.
  destruct HAVE_KEOPS; cpu_auto Hcpu.
Qed.

(** X6. Where torch.cuda.is_available() answers false, no run of the CIQ
    notebook ever calls .cuda(): data, model, likelihood and test points stay
    where they were created. *)
Theorem cpu_only_run {S : Type} (h : handler S) (HAVE_KEOPS : bool)
    (environ : environ_t) (s : S) (Hcpu : no_cuda h) :
  Forall (fun ev => ev_fn ev <> Method "cuda")
    (trace_of h (CIQ.notebook HAVE_KEOPS environ) s).
Proof.
  eapply Forall_impl; [apply (only_on_trace h _ _ (ciq_on_cpu h _ _ Hcpu))|].
  intros ev Hev. by apply bool_decide_eq_false in Hev.
Qed.

Lemma cpu_only_run_witness :
  no_cuda Toy.quiet /\
  Forall (fun ev => ev_fn ev <> Method "cuda")
    (trace_of Toy.quiet (CIQ.notebook CIQ.cell_3 ∅) Toy.start).
Proof.
  assert (Hcpu : no_cuda Toy.quiet).
  { intros args s s' v H. unfold Toy.quiet in H. simpl in H. by injection H as _ <-. }
  split; [exact Hcpu|].
  exact (cpu_only_run Toy.quiet CIQ.cell_3 ∅ Toy.start Hcpu).
Defined.

(** ** Progress lines *)

Lemma ok_for_indexed {S : Type} (h : handler S) (body : nat -> py unit)
    (P : nat -> list event -> Prop) :
  (forall i s tr s', ok_run h (body i) s tr s' tt -> P i tr) ->
  forall n start s tr s',
    ok_run h (for_range_from start n body) s tr s' tt ->
    exists passes, tr = concat passes /\ length passes = n /\
      forall i pass, passes !! i = Some pass -> P (start + i) pass.
Proof.
  intros HP. induction n as [|n IH]; intros start s tr s' H.
  - apply ok_ret in H as (-> & _ & _). exists []. by repeat split.
  - simpl in H. apply ok_bind in H as (tr1 & s1 & [] & tr2 & H1 & H2 & ->).
    apply IH in H2 as (passes & -> & <- & Hall).
    exists (tr1 :: passes). split; [done|]. split; [done|].
    intros [|i] pass Hi; simpl in Hi.
    + injection Hi as <-. rewrite Nat.add_0_r. by eapply HP.
    + rewrite <- Nat.add_succ_comm. by apply Hall.
Qed.

Lemma step_progress_line {S : Type} (h : handler S) (t : trainer) total
    optimizer model mll train_x train_y i s tr s' :
  ok_run h
    (match t with
     | SpectralMixtureTrainer =>
         SpectralMixture.training_step total optimizer model mll train_x train_y i
     | CIQTrainer => CIQ.training_step total optimizer model mll train_x train_y i
     end) s tr s' tt ->
  progress_line t optimizer total i tr.
Proof.
  intros H. destruct t;
    unfold SpectralMixture.training_step, CIQ.training_step, forward_backward in H;
    cbn -[Z.add Z.of_nat] in H;
    ok_calls H; apply ok_ret in H as (-> & _ & _).
  - apply (progress_line_intro SpectralMixtureTrainer optimizer total i
             [_; _; _; _] _ _ _ [] []). constructor.
  - apply (progress_line_intro CIQTrainer optimizer total i
             [_; _; _; _] _ _ _ [_; _; _; _; _; _; _] [_; _]).
    repeat constructor; apply (bool_decide_unpack _); reflexivity.
Qed.


Lemma quiet_loop_ok :
  ok_run Toy.quiet
    (training_loop_of SpectralMixtureTrainer 3 (VObj 0) (VObj 1) (VObj 2)
       (VObj 3) (VObj 4)) Toy.start
    (trace_of Toy.quiet
       (training_loop_of SpectralMixtureTrainer 3 (VObj 0) (VObj 1) (VObj 2)
          (VObj 3) (VObj 4)) Toy.start)
    (Toy.Counters 3 0) tt.
Proof.
  split; [vm_compute; reflexivity|]. apply (bool_decide_unpack _). vm_compute. exact I.
Qed.


(** ** Runs without exceptions, statement by statement *)

Ltac ok_steps :=
  repeat match goal with
         | H : ok_run _ (Call _ _ _) _ _ _ _ |- _ =>
             apply ok_call in H as (? & ? & ? & ? & -> & H)
         | H : ok_run _ (With _ _ _) _ _ _ _ |- _ =>
             let Hb := fresh "Hb" in
             apply ok_with in H as (? & ? & ? & ? & ? & ? & ? & ? & Hb & ? & H & ->)
         | H : ok_run _ (Ret _) _ _ _ _ |- _ =>
             apply ok_ret in H as (-> & ? & ?)
         end.

(** X2. In a run of cell 8 of the CIQ notebook where no call raises, the
    predictive distribution is computed once, under no_grad; the first
    sample is drawn from it inside ciq_samples(True),
    num_contour_quadrature(10) and minres_tolerance(1e-4); these are left,
    innermost first, before fast_computations(covar_root_decomposition=False)
    is entered, inside which the second sample is drawn from the same
    distribution; no_grad is left last. *)
Theorem ciq_then_cholesky {S : Type} (h : handler S) (n : CIQ.names) (test_x : val)
    (s s' : S) (tr : list event) (Hok : ok_run h (CIQ.cell_8 n test_x) s tr s' tt) :
  ciq_sampling (CIQ.model n) (CIQ.likelihood n) test_x (sampling_calls tr).
Proof.
  unfold CIQ.cell_8, with_, pct_time in Hok. cbn in Hok.
  ok_steps. vm_compute. constructor.
Qed.

Lemma quiet_cell_8_ok :
  ok_run Toy.quiet (CIQ.cell_8 (CIQ.Names (VObj 0) (VObj 1) (VObj 2) (VObj 3)) (VObj 4))
    Toy.start
    (trace_of Toy.quiet
       (CIQ.cell_8 (CIQ.Names (VObj 0) (VObj 1) (VObj 2) (VObj 3)) (VObj 4)) Toy.start)
    (Toy.Counters 0 1) tt.
Proof.
  split; [vm_compute; reflexivity|]. apply (bool_decide_unpack _). vm_compute. exact I.
Qed.

Lemma ciq_then_cholesky_witness :
  ok_run Toy.quiet (CIQ.cell_8 (CIQ.Names (VObj 0) (VObj 1) (VObj 2) (VObj 3)) (VObj 4))
    Toy.start
    (trace_of Toy.quiet
       (CIQ.cell_8 (CIQ.Names (VObj 0) (VObj 1) (VObj 2) (VObj 3)) (VObj 4)) Toy.start)
    (Toy.Counters 0 1) tt /\
  ciq_sampling (VObj 2) (VObj 3) (VObj 4)
    (sampling_calls
       (trace_of Toy.quiet
          (CIQ.cell_8 (CIQ.Names (VObj 0) (VObj 1) (VObj 2) (VObj 3)) (VObj 4))
          Toy.start)).
Proof.
  split; [exact quiet_cell_8_ok|].
  exact (ciq_then_cholesky Toy.quiet _ _ _ _ _ quiet_cell_8_ok).
Defined.

(** ** Same data, same likelihood *)



(** ** The forward methods *)

(** X7. In a run of forward where no call raises, for each of the four model
    classes, the mean module and the covariance module of self are applied
    to one and the same value and forward returns the multivariate normal of
    their two results; that value is the input x, except in
    GPWithNNFeatureExtractor, where it is what self.feature_extractor
    returns on x.  forward sets no attribute. *)
Theorem forward_calls {S : Type} (h : handler S) (c : class_id) (self x : val)
    (s s' : S) (tr : list event) (out : val)
    (Hok : ok_run h (cls_forward (class_of c) self x) s tr s' out) :
  exists z mm mean cm covar,
    (if has_feature_extractor c
     then exists fe, tr = feature_calls self x fe z ++
                          gp_forward_calls self z mm mean cm covar out
     else z = x /\ tr = gp_forward_calls self z mm mean cm covar out) /\
    Forall (fun ev => ev_fn ev <> SetAttr) tr.
Proof.
  destruct c as [| | |b]; try destruct b; simpl in Hok;
    ok_calls Hok; apply ok_ret in Hok as (-> & _ & ->);
    do 5 eexists; (split; [first [by eexists | by split]|]);
    repeat constructor; discriminate.
Qed.

Lemma quiet_forward_ok :
  ok_run Toy.quiet (cls_forward (class_of SaveLoadGPWithNN) (VObj 0) (VObj 1)) Toy.start
    (trace_of Toy.quiet (cls_forward (class_of SaveLoadGPWithNN) (VObj 0) (VObj 1))
       Toy.start)
    Toy.start VNone.
Proof.
  split; [vm_compute; reflexivity|]. apply (bool_decide_unpack _). vm_compute. exact I.
Qed.

Lemma forward_calls_witness :
  ok_run Toy.quiet (cls_forward (class_of SaveLoadGPWithNN) (VObj 0) (VObj 1)) Toy.start
    (trace_of Toy.quiet (cls_forward (class_of SaveLoadGPWithNN) (VObj 0) (VObj 1))
       Toy.start)
    Toy.start VNone /\
  Forall (fun ev => ev_fn ev <> SetAttr)
    (trace_of Toy.quiet (cls_forward (class_of SaveLoadGPWithNN) (VObj 0) (VObj 1))
       Toy.start).
Proof.
  split; [exact quiet_forward_ok|].
  destruct (forward_calls Toy.quiet SaveLoadGPWithNN (VObj 0) (VObj 1) _ _ _ _
              quiet_forward_ok) as (z & mm & mean & cm & covar & _ & H).
  exact H.
Defined.

(** ** Single cells on the framework model *)

(** X8. On the framework model, cell 4 changes exactly two entries of the
    model's state dictionary: raw_outputscale and raw_lengthscale go from
    their initial 0 to the inverse softplus of 1.2 and of 2.2, at their
    shapes; the keys and every other entry stay as they were built. *)
Theorem hyperparameters_set (nm : Torch.numerics) (g : nat) :
  exists tr1 w1 tr2 w2 m before after,
    run (Torch.torch nm) Cells.built (Recorded.fresh g) = (tr1, w1, inr (m, VDict before)) /\
    run (Torch.torch nm) Cells.tuned (Recorded.fresh g) = (tr2, w2, inr (m, VDict after)) /\
    Torch.keys after = Torch.keys before /\
    (forall k, k ∉ Cells.tuned_keys -> Torch.sd_get k after = Torch.sd_get k before) /\
    Torch.sd_get "covar_module.raw_outputscale" before = Some (Tensor [] [F 0 0]) /\
    Torch.sd_get "covar_module.raw_outputscale" after =
      Some (Tensor [] [Torch.inv_softplus nm (F 12 (-1))]) /\
    Torch.sd_get "covar_module.base_kernel.raw_lengthscale" before =
      Some (Tensor [1; 1] [F 0 0]) /\
    Torch.sd_get "covar_module.base_kernel.raw_lengthscale" after =
      Some (Tensor [1; 1] [Torch.inv_softplus nm (F 22 (-1))]).
Proof.
  do 4 eexists. exists (VObj 3), (Recorded.gp_entries (F 0 0) (F 0 0)), (Recorded.first_dict nm).
  split; [vm_compute; reflexivity|]. split; [vm_compute; reflexivity|].
  split; [reflexivity|]. split; [|by repeat split].
  intros k Hk. unfold Recorded.first_dict, Recorded.gp_entries, Torch.sd_get.
  repeat match goal with
         | |- context [String.eqb ?a k] =>
             let E := fresh "E" in
             destruct (String.eqb a k) eqn:E;
             [first [reflexivity
                    | apply String.eqb_eq in E; subst k; exfalso; apply Hk;
                      unfold Cells.tuned_keys; set_solver]|]
         end.
  reflexivity.
Qed.

(** X9. On the framework model, in any state of the kernel in which the
    file model_state.pth does not exist (cell 6 has not run), cell 7 raises
    FileNotFoundError at its first call: no model is built and the kernel is
    left as it was. *)
Theorem reload_needs_checkpoint (nm : Torch.numerics) (w : Torch.world)
    (train_x train_y likelihood : val)
    (Hmissing : Torch.files w !! "model_state.pth" = None) :
  run (Torch.torch nm) (SaveLoad.cell_7 train_x train_y likelihood) w =
    ([Ev (Func "torch.load") [VStr "model_state.pth"]
         (inl (Exn "FileNotFoundError" "model_state.pth"))],
     w, inl (Exn "FileNotFoundError" "model_state.pth")).
Proof.
  unfold SaveLoad.cell_7. simpl.
  unfold Torch.do_func. simpl. rewrite Hmissing. reflexivity.
Qed.

Lemma reload_needs_checkpoint_witness :
  Torch.files (Recorded.fresh 0) !! "model_state.pth" = None /\
  result_of (Torch.torch Torch.recorded_numerics)
    (SaveLoad.cell_7 VNone VNone VNone) (Recorded.fresh 0) =
    inl (Exn "FileNotFoundError" "model_state.pth").
Proof.
  assert (Hmissing : Torch.files (Recorded.fresh 0) !! "model_state.pth" = None)
    by reflexivity.
  split; [exact Hmissing|].
  unfold result_of.
  rewrite (reload_needs_checkpoint Torch.recorded_numerics (Recorded.fresh 0)
             VNone VNone VNone Hmissing).
  reflexivity.
Defined.

(** ** Prediction and plot *)

(** X10. In a run of cell 9 of the spectral-mixture notebook where no call
    raises, model and likelihood are put in evaluation mode first; one
    predictive distribution, likelihood(model(test_x)) on 51 points of
    [0, 5], is computed under no_grad and fast_pred_var; the stars are the
    training data, the line is the mean of that distribution over the test
    points, and the shaded band lies between the first and the second
    component of its confidence region over the same test points. *)
Theorem prediction_plotted {S : Type} (h : handler S)
    (train_x train_y likelihood model : val) (s s' : S) (tr : list event)
    (Hok : ok_run h (SpectralMixture.cell_9 train_x train_y likelihood model)
             s tr s' tt) :
  sm_prediction_plot train_x train_y likelihood model tr.
Proof.
  unfold SpectralMixture.cell_9, with_, unpack2 in Hok. cbn in Hok.
  ok_steps. simpl. constructor.
Qed.

Lemma quiet_cell_9_ok :
  ok_run Toy.quiet (SpectralMixture.cell_9 (VObj 0) (VObj 1) (VObj 2) (VObj 3))
    Toy.start
    (trace_of Toy.quiet (SpectralMixture.cell_9 (VObj 0) (VObj 1) (VObj 2) (VObj 3))
       Toy.start)
    Toy.start tt.
Proof.
  split; [vm_compute; reflexivity|]. apply (bool_decide_unpack _). vm_compute. exact I.
Qed.

Lemma prediction_plotted_witness :
  ok_run Toy.quiet (SpectralMixture.cell_9 (VObj 0) (VObj 1) (VObj 2) (VObj 3))
    Toy.start
    (trace_of Toy.quiet (SpectralMixture.cell_9 (VObj 0) (VObj 1) (VObj 2) (VObj 3))
       Toy.start)
    Toy.start tt /\
  sm_prediction_plot (VObj 0) (VObj 1) (VObj 2) (VObj 3)
    (trace_of Toy.quiet (SpectralMixture.cell_9 (VObj 0) (VObj 1) (VObj 2) (VObj 3))
       Toy.start).
Proof.
  split; [exact quiet_cell_9_ok|].
  exact (prediction_plotted Toy.quiet _ _ _ _ _ _ _ quiet_cell_9_ok).
Defined.

(** ** The KeOps flag *)

Ltac must_step' :=
  first
    [ apply must_here; first [reflexivity | by split]
    | apply must_later; intros ?
    | apply must_body
    | match goal with
      | |- context [if truthy ?v then _ else _] => destruct (truthy v)
      end ].
Ltac must_auto' := cbn -[for_range_from]; repeat (must_step'; cbn -[for_range_from]).

Lemma ciq_must_kernel (HAVE_KEOPS : bool) (environ : environ_t) :
  must (fun f args =>
          calls_to (Func (if HAVE_KEOPS then "gpytorch.kernels.keops.RBFKernel"
                          else "gpytorch.kernels.RBFKernel")) f args = true)
       (CIQ.notebook HAVE_KEOPS environ).
Proof. unfold CIQ.notebook. destruct HAVE_KEOPS; must_auto'. Qed.

Lemma ciq_must_test_set (HAVE_KEOPS : bool) (environ : environ_t) :
  must (is_test_set (if HAVE_KEOPS then 50000 else 10000))
       (CIQ.notebook HAVE_KEOPS environ).
Proof.
  unfold CIQ.notebook, CIQ.cell_6, CIQ.training_loop, for_range.
  destruct HAVE_KEOPS; must_auto'; (apply must_bind_r; intros ?); must_auto'.
Qed.

Lemma ciq_only_kernel (HAVE_KEOPS : bool) (environ : environ_t) :
  only (fun f args =>
          calls_to (Func (if HAVE_KEOPS then "gpytorch.kernels.RBFKernel"
                          else "gpytorch.kernels.keops.RBFKernel")) f args = false)
       (CIQ.notebook HAVE_KEOPS environ).
Proof.
  unfold CIQ.notebook, CIQ.cell_6, CIQ.training_loop, for_range.
  destruct HAVE_KEOPS; only_auto.
Qed.

(** X11. In a run of the CIQ notebook where no call raises, the flag
    HAVE_KEOPS decides two things together: with the flag the kernel is the
    KeOps RBF kernel, never the plain one, and the test set has 50000
    points; without it the kernel is the plain RBF kernel, never the KeOps
    one, and the test set has 10000 points. *)
Theorem keops_flag {S : Type} (h : handler S) (HAVE_KEOPS : bool)
    (environ : environ_t) (s s' : S) (tr : list event)
    (Hok : ok_run h (CIQ.notebook HAVE_KEOPS environ) s tr s' tt) :
  any_call (calls_to (Func "gpytorch.kernels.keops.RBFKernel")) tr = HAVE_KEOPS /\
  any_call (calls_to (Func "gpytorch.kernels.RBFKernel")) tr = negb HAVE_KEOPS /\
  Exists (fun ev => is_test_set (CIQ.test_n HAVE_KEOPS) (ev_fn ev) (ev_args ev)) tr.
Proof.
  pose proof (must_ok h _ _ (ciq_must_kernel HAVE_KEOPS environ) _ _ _ _ Hok) as Hk.
  pose proof (must_ok h _ _ (ciq_must_test_set HAVE_KEOPS environ) _ _ _ _ Hok) as Ht.
  pose proof (only_trace h _ _ (ciq_only_kernel HAVE_KEOPS environ) s) as Hn.
  rewrite <- (trace_of_ok _ _ _ _ _ _ Hok) in Hn.
  destruct HAVE_KEOPS; simpl in *.
  - split; [by apply any_call_true|]. split; [|done].
    by apply (any_call_false _ _ _ Hn).
  - split; [by apply (any_call_false _ _ _ Hn)|]. split; [|done].
    by apply any_call_true.
Qed.

Lemma quiet_ciq_ok :
  ok_run Toy.quiet (CIQ.notebook CIQ.cell_3 {[ "CI" := "true" ]}) Toy.start
    (trace_of Toy.quiet (CIQ.notebook CIQ.cell_3 {[ "CI" := "true" ]}) Toy.start)
    (Toy.Counters 2 1) tt.
Proof.
  split; [vm_compute; reflexivity|]. apply (bool_decide_unpack _). vm_compute. exact I.
Qed.

Lemma keops_flag_witness :
  ok_run Toy.quiet (CIQ.notebook CIQ.cell_3 {[ "CI" := "true" ]}) Toy.start
    (trace_of Toy.quiet (CIQ.notebook CIQ.cell_3 {[ "CI" := "true" ]}) Toy.start)
    (Toy.Counters 2 1) tt /\
  any_call (calls_to (Func "gpytorch.kernels.keops.RBFKernel"))
    (trace_of Toy.quiet (CIQ.notebook CIQ.cell_3 {[ "CI" := "true" ]}) Toy.start)
  = false.
Proof.
  split; [exact quiet_ciq_ok|].
  exact (proj1 (keops_flag Toy.quiet CIQ.cell_3 {[ "CI" := "true" ]} _ _ _
                  quiet_ciq_ok)).
Defined.
